(** * PlantApp: the multi-source data access layer of [script.js]

    A shallow embedding of the data access functions of the plant and
    fungi browser ([getPlantList], [getPlantDetails], [getRandomPlant],
    the three normalizers, [multiSourceSearch], [combineSearchResults])
    together with the properties of the specification that concern them.

    Conventions of the embedding.
    - JavaScript values are the inductive [value]; numbers are the
      integers (type [Z]) plus [VNaN]; fractional numbers and infinities are
      not represented.  Strings are byte strings.
    - A computation that may throw returns an [outcome]; an [async]
      function is a state transformer over [World] returning an [outcome]
      (a rejected promise is a [Throw]).
    - The browser is the record [World]: [localStorage], the in-memory
      [plantCache], the variable [lastApiCallTime], the clock read by
      [Date.now()] and the log of the requests handed to [fetch].
    - Built-in functions whose result is fixed by the engine and not by
      this program ([JSON.parse], [JSON.stringify], [encodeURIComponent],
      and the string methods [toLowerCase], [trim] and
      [replace(/\s+/g, '_')], which follow Unicode) and the remote servers
      are parameters. *)

From Stdlib Require Import ZArith String Ascii List Lia.
From Stdlib Require Import DecimalString DecimalZ DecimalN DecimalPos.
From stdpp Require Import gmap strings list.

Set Warnings "-register-all".
Open Scope Z_scope.
Open Scope string_scope.

(** ** JavaScript values *)

Inductive value : Type :=
| VUndefined
| VNull
| VNaN
| VBool (b : bool)
| VNum (n : Z)
| VStr (s : string)
| VArr (items : list value)
| VObj (fields : list (string * value)).

(** Errors carry the [message] the program inspects. [Error] is the
    program's own [new Error(msg)]; [TypeError] and [SyntaxError] are raised
    by the engine, with a representative message. *)
Inductive JsError : Type :=
| Error (msg : string)
| TypeError (msg : string)
| SyntaxError (msg : string).

Definition message (e : JsError) : string :=
  match e with Error m | TypeError m | SyntaxError m => m end.

Inductive outcome (A : Type) : Type :=
| Return (a : A)
| Throw (e : JsError).
Arguments Return {A} a.
Arguments Throw {A} e.

#[global] Instance outcome_ret : MRet outcome := fun _ a => Return a.
#[global] Instance outcome_bind : MBind outcome := fun _ _ f m =>
  match m with Return a => f a | Throw e => Throw e end.
#[global] Instance outcome_fmap : FMap outcome := fun _ _ f m =>
  match m with Return a => Return (f a) | Throw e => Throw e end.

Definition returns {A} (m : outcome A) : bool :=
  match m with Return _ => true | Throw _ => false end.

(** *** Strings *)

Definition string_of_Z (z : Z) : string := NilZero.string_of_int (Z.to_int z).

Fixpoint string_map (f : ascii -> ascii) (s : string) : string :=
  match s with
  | EmptyString => EmptyString
  | String c r => String (f c) (string_map f r)
  end.

Definition lower_ascii (c : ascii) : ascii :=
  let n := nat_of_ascii c in
  if ((65 <=? n)%nat && (n <=? 90)%nat)%bool then ascii_of_nat (n + 32) else c.

(** [s.toLowerCase()] on a string of ASCII characters. *)
Definition ascii_toLowerCase (s : string) : string := string_map lower_ascii s.

Fixpoint trimStart (s : string) : string :=
  match s with
  | String c r => if Ascii.is_space c then trimStart r else s
  | EmptyString => EmptyString
  end.

Fixpoint trimEnd (s : string) : string :=
  match s with
  | EmptyString => EmptyString
  | String c r =>
      match trimEnd r with
      | EmptyString => if Ascii.is_space c then EmptyString else String c EmptyString
      | r' => String c r'
      end
  end.

(** [s.trim()] on a string of ASCII characters. *)
Definition ascii_trim (s : string) : string := trimEnd (trimStart s).

(** [s.startsWith(p)] *)
Definition startsWith (s p : string) : bool := String.prefix p s.

(** [s.includes(p)] *)
Fixpoint includes (s p : string) : bool :=
  String.prefix p s ||
  match s with
  | EmptyString => false
  | String _ r => includes r p
  end.

(** [s.replace(/\s+/g, '_')]: every maximal run of white space becomes one
    underscore. *)
Fixpoint replace_spaces_from (in_run : bool) (s : string) : string :=
  match s with
  | EmptyString => EmptyString
  | String c r =>
      if Ascii.is_space c
      then (if in_run then replace_spaces_from true r
            else String "_" (replace_spaces_from true r))
      else String c (replace_spaces_from false r)
  end.

Definition ascii_replace_spaces (s : string) : string :=
  replace_spaces_from false s.

(** [parseInt(s)]: optional white space, optional sign, then the longest
    run of digits (hexadecimal after a [0x] prefix); [None] is [NaN]. *)
Definition digit_of (c : ascii) : option Z :=
  let n := nat_of_ascii c in
  if ((48 <=? n)%nat && (n <=? 57)%nat)%bool then Some (Z.of_nat n - 48) else None.

Definition hex_digit_of (c : ascii) : option Z :=
  let n := nat_of_ascii c in
  if ((48 <=? n)%nat && (n <=? 57)%nat)%bool then Some (Z.of_nat n - 48)
  else if ((97 <=? n)%nat && (n <=? 102)%nat)%bool then Some (Z.of_nat n - 87)
  else if ((65 <=? n)%nat && (n <=? 70)%nat)%bool then Some (Z.of_nat n - 55)
  else None.

Fixpoint parse_digits (digit : ascii -> option Z) (radix : Z) (s : string)
    (acc : option Z) : option Z :=
  match s with
  | EmptyString => acc
  | String c r =>
      match digit c with
      | Some d => parse_digits digit radix r (Some (radix * default 0 acc + d))
      | None => acc
      end
  end.

Definition parse_unsigned (s : string) : option Z :=
  match s with
  | String "0" (String "x" r) | String "0" (String "X" r) =>
      parse_digits hex_digit_of 16 r None
  | _ => parse_digits digit_of 10 s None
  end.

Definition parseInt (s : string) : option Z :=
  match trimStart s with
  | String "-" r => Z.opp <$> parse_unsigned r
  | String "+" r => parse_unsigned r
  | r => parse_unsigned r
  end.

(** *** Coercions and operators *)

(** [Boolean(v)] *)
Definition truthy (v : value) : bool :=
  match v with
  | VUndefined | VNull | VNaN => false
  | VBool b => b
  | VNum n => negb (Z.eqb n 0)
  | VStr s => negb (String.eqb s "")
  | VArr _ | VObj _ => true
  end.

(** [a || b], both operands already evaluated (used where evaluating [b]
    has no effect). *)
Definition js_or (a b : value) : value := if truthy a then a else b.
Infix "|||" := js_or (at level 50, left associativity).

Definition nullish (v : value) : bool :=
  match v with VUndefined | VNull => true | _ => false end.

Definition isArray (v : value) : bool :=
  match v with VArr _ => true | _ => false end.

Fixpoint assoc (k : string) (fs : list (string * value)) : value :=
  match fs with
  | [] => VUndefined
  | (k', v) :: r => if String.eqb k' k then v else assoc k r
  end.

(** [xs.join(sep)] with the element conversion [f]. *)
Definition join_with (f : value -> string) (sep : string) : list value -> string :=
  fix go (l : list value) : string :=
    match l with
    | [] => ""
    | [x] => f x
    | x :: r => f x +:+ sep +:+ go r
    end.

(** [String(v)], as used by template literals, [+] and [join]. *)
Fixpoint js_toString (v : value) : string :=
  match v with
  | VUndefined => "undefined"
  | VNull => "null"
  | VNaN => "NaN"
  | VBool true => "true"
  | VBool false => "false"
  | VNum n => string_of_Z n
  | VStr s => s
  | VArr l =>
      join_with (fun x => match x with
                          | VUndefined | VNull => ""
                          | _ => js_toString x
                          end) "," l
  | VObj _ => "[object Object]"
  end.

Definition join_item (x : value) : string :=
  match x with VUndefined | VNull => "" | _ => js_toString x end.

(** [xs.join(sep)] *)
Definition join (sep : string) (l : list value) : string :=
  join_with join_item sep l.

(** [Number(v)] on primitives; [None] is [NaN].  For strings only decimal
    integer literals are converted. *)
Fixpoint all_digits (s : string) : bool :=
  match s with
  | EmptyString => true
  | String c r => match digit_of c with Some _ => all_digits r | None => false end
  end.

Definition string_to_number (s : string) : option Z :=
  match ascii_trim s with
  | EmptyString => Some 0
  | String "-" r => if all_digits r then Z.opp <$> parse_digits digit_of 10 r None else None
  | String "+" r => if all_digits r then parse_digits digit_of 10 r None else None
  | r => if all_digits r then parse_digits digit_of 10 r None else None
  end.

Definition js_toNumber (v : value) : option Z :=
  match v with
  | VUndefined | VNaN => None
  | VNull => Some 0
  | VBool b => Some (if b then 1 else 0)
  | VNum n => Some n
  | VStr s => string_to_number s
  | VArr _ | VObj _ => string_to_number (js_toString v)
  end.

Definition of_number (n : option Z) : value :=
  match n with Some z => VNum z | None => VNaN end.

(** [a + b] *)
Definition js_add (a b : value) : value :=
  match a, b with
  | (VStr _ | VArr _ | VObj _), _ | _, (VStr _ | VArr _ | VObj _) =>
      VStr (js_toString a +:+ js_toString b)
  | _, _ =>
      match js_toNumber a, js_toNumber b with
      | Some x, Some y => VNum (x + y)
      | _, _ => VNaN
      end
  end.

(** [a > 0] *)
Definition js_gt_zero (a : value) : bool :=
  match js_toNumber a with Some x => Z.ltb 0 x | None => false end.

(** *** Property access *)

Definition not_a_function (what : string) : JsError :=
  TypeError (what +:+ " is not a function").
Definition cannot_read (what : string) : JsError :=
  TypeError ("Cannot read properties of undefined (reading '" +:+ what +:+ "')").

Fixpoint chars (s : string) : list value :=
  match s with
  | EmptyString => []
  | String c r => VStr (String c EmptyString) :: chars r
  end.

(** [v.k] for a data property [k].  Arrays and strings answer [length];
    the method names of arrays and strings are never read as data by the
    program (method calls are the functions below). *)
Definition get (v : value) (k : string) : outcome value :=
  match v with
  | VUndefined | VNull => Throw (cannot_read k)
  | VObj fs => Return (assoc k fs)
  | VArr l => Return (if String.eqb k "length" then VNum (Z.of_nat (length l)) else VUndefined)
  | VStr s => Return (if String.eqb k "length" then VNum (Z.of_nat (String.length s)) else VUndefined)
  | _ => Return VUndefined
  end.

(** [v?.k] *)
Definition get_opt (v : value) (k : string) : value :=
  match get v k with Return x => x | Throw _ => VUndefined end.

(** [v[0]] *)
Definition first_item (v : value) : outcome value :=
  match v with
  | VUndefined | VNull => Throw (cannot_read "0")
  | VArr l => Return (default VUndefined (head l))
  | VStr s => Return (default VUndefined (head (chars s)))
  | VObj fs => Return (assoc "0" fs)
  | _ => Return VUndefined
  end.

(** [{...v}]: the own enumerable properties of [v]. *)
Fixpoint indexed (i : nat) (l : list value) : list (string * value) :=
  match l with
  | [] => []
  | x :: r => (string_of_Z (Z.of_nat i), x) :: indexed (S i) r
  end.

Definition spread (v : value) : list (string * value) :=
  match v with
  | VObj fs => fs
  | VArr l => indexed 0 l
  | VStr s => indexed 0 (chars s)
  | _ => []
  end.

(** [{...fs, k: v}]: an existing property keeps its place. *)
Fixpoint set_field (k : string) (v : value) (fs : list (string * value))
    : list (string * value) :=
  match fs with
  | [] => [(k, v)]
  | (k', v') :: r =>
      if String.eqb k' k then (k, v) :: r else (k', v') :: set_field k v r
  end.

(** *** String methods of the engine

    [String.prototype.toLowerCase], [String.prototype.trim] and
    [s.replace(/\s+/g, '_')] follow the Unicode tables of the engine.  They
    are parameters; all that is used of them is their value on the empty
    string. *)
Class StringMethods : Type := {
  toLowerCase : string -> string;
  trim : string -> string;
  replace_spaces : string -> string;
  toLowerCase_empty : toLowerCase "" = "";
  trim_empty : trim "" = ""
}.

(** [v.toLowerCase()], [v.trim()] on a value that need not be a string. *)
Definition call_toLowerCase `{StringMethods} (v : value) : outcome string :=
  match v with
  | VStr s => Return (toLowerCase s)
  | VUndefined | VNull => Throw (cannot_read "toLowerCase")
  | _ => Throw (not_a_function "toLowerCase")
  end.

Definition call_trim `{StringMethods} (v : value) : outcome string :=
  match v with
  | VStr s => Return (trim s)
  | VUndefined | VNull => Throw (cannot_read "trim")
  | _ => Throw (not_a_function "trim")
  end.

(** [v.replace(/\s+/g, '_')] *)
Definition call_replace_spaces `{StringMethods} (v : value) : outcome string :=
  match v with
  | VStr s => Return (replace_spaces s)
  | VUndefined | VNull => Throw (cannot_read "replace")
  | _ => Throw (not_a_function "replace")
  end.

(** [v?.join?.(sep)] *)
Definition call_join_opt (v : value) (sep : string) : outcome value :=
  match v with
  | VArr l => Return (VStr (join sep l))
  | VObj fs => if nullish (assoc "join" fs) then Return VUndefined
               else Throw (not_a_function "join")
  | _ => Return VUndefined
  end.

Definition call_includes (v : value) (p : string) : outcome bool :=
  match v with
  | VStr s => Return (includes s p)
  | VArr l => Return (existsb (fun x => match x with
                                         | VStr y => String.eqb y p
                                         | _ => false
                                         end) l)
  | VUndefined | VNull => Throw (cannot_read "includes")
  | _ => Throw (not_a_function "includes")
  end.

Definition call_startsWith (v : value) (p : string) : outcome bool :=
  match v with
  | VStr s => Return (startsWith s p)
  | VUndefined | VNull => Throw (cannot_read "startsWith")
  | _ => Throw (not_a_function "startsWith")
  end.

(** [v === 's'] *)
Definition is_str (v : value) (s : string) : bool :=
  match v with VStr x => String.eqb x s | _ => false end.

(** [a || b] where evaluating either operand may throw: [b] is evaluated
    only when [a] is falsy. *)
Definition or_else (a b : outcome value) : outcome value :=
  x ← a; if truthy x then mret x else b.

Fixpoint foldM {A B} (f : A -> B -> outcome A) (a : A) (l : list B) : outcome A :=
  match l with
  | [] => mret a
  | x :: r => a' ← f a x; foldM f a' r
  end.

Fixpoint filterM {A} (f : A -> outcome bool) (l : list A) : outcome (list A) :=
  match l with
  | [] => mret []
  | x :: r => b ← f x; r' ← filterM f r; mret (if b : bool then x :: r' else r')
  end.

Fixpoint mapM_outcome {A B} (f : A -> outcome B) (l : list A) : outcome (list B) :=
  match l with
  | [] => mret []
  | x :: r => y ← f x; r' ← mapM_outcome f r; mret (y :: r')
  end.

(** ** Normalizers *)

Definition PLACEHOLDER_IMG : string := "MushroomApp.png".

Section Normalizers.

Context `{StringMethods}.

(** The engine's [encodeURIComponent]. *)
Variable encodeURIComponent : string -> string.

Definition getWikipediaUrl (name : value) : outcome value :=
  if negb (truthy name) then mret VNull
  else
    underscored ← call_replace_spaces name;
    mret (VStr ("https://en.wikipedia.org/wiki/" +:+ encodeURIComponent underscored)).

(** [Array.isArray(x) ? x.join(', ') : (x || 'N/A')] *)
Definition joined_or_NA (x : value) : value :=
  match x with
  | VArr l => VStr (join ", " l)
  | _ => x ||| VStr "N/A"
  end.

(** [{ value: b?.value || 'N/A', unit: b?.unit || '' }] *)
Definition benchmark (b : value) : value :=
  VObj [ ("value", get_opt b "value" ||| VStr "N/A");
         ("unit", get_opt b "unit" ||| VStr "") ].

(** [formatPlantData(data)].  The first read [data.common_name] throws
    when [data] is [null] or [undefined]; past it every [data.k] is a
    plain read, written [field k]. *)
Definition formatPlantData (data : value) : outcome value :=
  common_name ← get data "common_name";
  let field := get_opt data in
  let commonName := common_name ||| VStr "Unknown Plant" in
  joined ← call_join_opt (field "scientific_name") ", ";
  let scientificName := joined ||| field "scientific_name" ||| VStr "N/A" in
  wikipediaUrl ← or_else (getWikipediaUrl commonName) (getWikipediaUrl scientificName);
  mret (VObj [
    ("id", field "id");
    ("source", VStr "perenual");
    ("common_name", commonName);
    ("scientific_name", scientificName);
    ("description", field "description" ||| VStr "No description available.");
    ("image_url", get_opt (field "default_image") "regular_url"
                  ||| get_opt (field "default_image") "original_url"
                  ||| VStr PLACEHOLDER_IMG);
    ("wikipedia_url", wikipediaUrl);
    ("cycle", field "cycle" ||| VStr "N/A");
    ("watering", field "watering" ||| VStr "N/A");
    ("sunlight", joined_or_NA (field "sunlight"));
    ("watering_period", field "watering_period" ||| VStr "N/A");
    ("watering_general_benchmark", benchmark (field "watering_general_benchmark"));
    ("depth_water_requirement", benchmark (field "depth_water_requirement"));
    ("volume_water_requirement", benchmark (field "volume_water_requirement"));
    ("dimension", field "dimension" ||| VStr "N/A");
    ("type", field "type" ||| VStr "N/A");
    ("growth_rate", field "growth_rate" ||| VStr "N/A");
    ("maintenance", field "maintenance" ||| VStr "N/A");
    ("care_level", field "care_level" ||| VStr "N/A");
    ("flowers", field "flowers" ||| VBool false);
    ("flowering_season", field "flowering_season" ||| VStr "N/A");
    ("flower_color", field "flower_color" ||| VStr "N/A");
    ("edible_fruit", field "edible_fruit" ||| VBool false);
    ("edible_leaf", field "edible_leaf" ||| VBool false);
    ("poisonous_to_humans", field "poisonous_to_humans" ||| VNum 0);
    ("poisonous_to_pets", field "poisonous_to_pets" ||| VNum 0);
    ("medicinal", field "medicinal" ||| VBool false);
    ("invasive", field "invasive" ||| VBool false);
    ("tropical", field "tropical" ||| VBool false);
    ("indoor", field "indoor" ||| VBool false);
    ("cuisine", field "cuisine" ||| VBool false);
    ("hardiness", VObj [
       ("min", get_opt (field "hardiness") "min" ||| VStr "N/A");
       ("max", get_opt (field "hardiness") "max" ||| VStr "N/A") ]);
    ("hardiness_location", VObj [
       ("full_url", get_opt (field "hardiness_location") "full_url" ||| VNull);
       ("full_iframe", get_opt (field "hardiness_location") "full_iframe" ||| VNull) ]);
    ("soil", joined_or_NA (field "soil"));
    ("propagation", joined_or_NA (field "propagation"));
    ("attracts", joined_or_NA (field "attracts"));
    ("origin", joined_or_NA (field "origin"));
    ("other_name", match field "other_name" with
                   | VArr l => VStr (join ", " (take 3 l))
                   | x => x ||| VStr "N/A"
                   end)
  ]).

(** The six local variables of [formatINaturalistData]. *)
Record Ranks := {
  kingdom : value; phylum : value; class_rank : value;
  order : value; family : value; genus : value
}.

Definition no_ranks : Ranks :=
  {| kingdom := VStr "N/A"; phylum := VStr "N/A"; class_rank := VStr "N/A";
     order := VStr "N/A"; family := VStr "N/A"; genus := VStr "N/A" |}.

(** [if (rank === 'kingdom') kingdom = name; else if ... genus = name;] *)
Definition assign_rank (rank name : value) (r : Ranks) : Ranks :=
  if is_str rank "kingdom" then
    {| kingdom := name; phylum := phylum r; class_rank := class_rank r;
       order := order r; family := family r; genus := genus r |}
  else if is_str rank "phylum" then
    {| kingdom := kingdom r; phylum := name; class_rank := class_rank r;
       order := order r; family := family r; genus := genus r |}
  else if is_str rank "class" then
    {| kingdom := kingdom r; phylum := phylum r; class_rank := name;
       order := order r; family := family r; genus := genus r |}
  else if is_str rank "order" then
    {| kingdom := kingdom r; phylum := phylum r; class_rank := class_rank r;
       order := name; family := family r; genus := genus r |}
  else if is_str rank "family" then
    {| kingdom := kingdom r; phylum := phylum r; class_rank := class_rank r;
       order := order r; family := name; genus := genus r |}
  else if is_str rank "genus" then
    {| kingdom := kingdom r; phylum := phylum r; class_rank := class_rank r;
       order := order r; family := family r; genus := name |}
  else r.

(** [formatINaturalistData(taxon)].  As above, [field k] is [taxon.k]
    once the first read has shown [taxon] not to be [null] or
    [undefined]. *)
Definition formatINaturalistData (taxon : value) : outcome value :=
  default_photo ← get taxon "default_photo";
  let field := get_opt taxon in
  imageUrl ←
    (if truthy default_photo then
       mret (get_opt default_photo "medium_url"
             ||| get_opt default_photo "original_url"
             ||| get_opt default_photo "large_url"
             ||| get_opt default_photo "small_url"
             ||| get_opt default_photo "url"
             ||| VStr PLACEHOLDER_IMG)
     else if truthy (field "taxon_photos")
             && js_gt_zero (get_opt (field "taxon_photos") "length") then
       first ← first_item (field "taxon_photos");
       photo ← get first "photo";
       medium_url ← get photo "medium_url";
       mret (medium_url
             ||| get_opt photo "original_url"
             ||| get_opt photo "large_url"
             ||| get_opt photo "url"
             ||| VStr PLACEHOLDER_IMG)
     else mret (VStr PLACEHOLDER_IMG));
  ranks ←
    (if truthy (field "ancestors") then
       match field "ancestors" with
       | VArr ancestors =>
           foldM (fun r ancestor =>
                    rank ← get ancestor "rank";
                    mret (assign_rank rank (get_opt ancestor "name") r))
                 no_ranks ancestors
       | _ => Throw (not_a_function "forEach")
       end
     else mret no_ranks);
  let ranks := assign_rank (field "rank") (field "name") ranks in
  let commonName := field "preferred_common_name" ||| field "name" in
  let scientificName := field "name" in
  wikipediaUrl ←
    or_else (or_else (mret (field "wikipedia_url")) (getWikipediaUrl commonName))
            (getWikipediaUrl scientificName);
  mret (VObj [
    ("id", VStr ("inat_" +:+ js_toString (field "id")));
    ("source", VStr "inaturalist");
    ("common_name", commonName);
    ("scientific_name", scientificName);
    ("description", field "wikipedia_summary" ||| field "observations" ||| VNull);
    ("image_url", imageUrl);
    ("rank", field "rank" ||| VStr "N/A");
    ("iconic_taxon_name", field "iconic_taxon_name" ||| VStr "N/A");
    ("observations_count", field "observations_count" ||| VNum 0);
    ("wikipedia_url", wikipediaUrl);
    ("is_active", field "is_active" ||| VBool false);
    ("endemic", field "endemic" ||| VBool false);
    ("threatened", field "threatened" ||| VBool false);
    ("introduced", field "introduced" ||| VBool false);
    ("native", field "native" ||| VBool false);
    ("taxon_id", field "id");
    ("kingdom", kingdom ranks);
    ("phylum", phylum ranks);
    ("class", class_rank ranks);
    ("order", order ranks);
    ("family", family ranks);
    ("genus", genus ranks)
  ]).

(** [formatToxicShroomData(data)] *)
Definition formatToxicShroomData (data : value) : outcome value :=
  img ← get data "img";
  let field := get_opt data in
  imageUrl ←
    (if truthy img then
       commons ← call_includes img "commons.wikimedia.org";
       if commons : bool then mret img
       else
         relative ← call_startsWith img "//";
         if relative : bool then mret (js_add (VStr "https:") img)
         else
           absolute ← call_startsWith img "http";
           mret (if absolute : bool then img else VStr PLACEHOLDER_IMG)
     else mret (VStr PLACEHOLDER_IMG));
  distribution ←
    match field "distribution" with
    | VArr l =>
        filtered ← filterM (fun d =>
                              if truthy d
                              then t ← call_trim d; mret (truthy (VStr t))
                              else mret false) l;
        mret (if (0 <? length filtered)%nat
              then VStr (join ", " filtered) else VStr "Unknown")
    | d => mret (if truthy d then d else VStr "Unknown")
    end;
  let commonName := field "commonname" ||| field "name" in
  let scientificName := field "name" in
  wikipediaUrl ← or_else (getWikipediaUrl commonName) (getWikipediaUrl scientificName);
  slug ← call_replace_spaces (field "name");
  mret (VObj [
    ("id", VStr ("toxic_" +:+ slug));
    ("source", VStr "toxicshrooms");
    ("common_name", commonName);
    ("scientific_name", scientificName);
    ("description", VStr ("Toxic agent: " +:+ js_toString (field "agent" ||| VStr "Unknown")
                          +:+ ". Distribution: " +:+ js_toString distribution));
    ("image_url", imageUrl);
    ("toxicity_type", field "type");
    ("toxic_agent", field "agent" ||| VStr "Unknown toxins");
    ("distribution", distribution);
    ("wikipedia_url", wikipediaUrl)
  ]).

End Normalizers.

(** ** The browser and the network *)

(** One call of [fetch]: the address and the time it was issued. *)
Record Request := { url : string; issued_at : Z }.

(** What comes back: after [latency] milliseconds either the promise is
    rejected (the server could not be reached) or a response arrives. *)
Inductive Answer : Type :=
| Unreachable (e : JsError)
| Response (status : Z) (body : string).

Record Reply := { latency : N; answer : Answer }.

Record World := {
  localStorage : gmap string string;
  (** the entries of the [plantCache] map that are stored under string ids;
      [getPlantDetails] reads no other entry *)
  plantCache : gmap string value;
  lastApiCallTime : Z;
  (** the value of [Date.now()] *)
  clock : Z;
  (** the calls of [fetch] so far, oldest first *)
  requests : list Request
}.

(** An [async] function body: runs from a world, ends in a world, returns
    or throws. *)
Definition Async (A : Type) : Type := World -> outcome A * World.

#[global] Instance Async_ret : MRet Async := fun _ a w => (Return a, w).
#[global] Instance Async_bind : MBind Async := fun _ _ f m w =>
  match m w with
  | (Return a, w') => f a w'
  | (Throw e, w') => (Throw e, w')
  end.

Definition throw {A} (e : JsError) : Async A := fun w => (Throw e, w).

Definition lift {A} (m : outcome A) : Async A := fun w => (m, w).

(** [try { m } catch (e) { handler e }] *)
Definition try_catch {A} (m : Async A) (handler : JsError -> Async A) : Async A :=
  fun w =>
    match m w with
    | (Return a, w') => (Return a, w')
    | (Throw e, w') => handler e w'
    end.

Definition Date_now : Async Z := fun w => (Return (clock w), w).

(** [await new Promise(resolve => setTimeout(resolve, ms))]; the timer
    fires exactly on time. *)
Definition sleep (ms : Z) : Async unit := fun w =>
  (Return tt,
   {| localStorage := localStorage w; plantCache := plantCache w;
      lastApiCallTime := lastApiCallTime w;
      clock := clock w + Z.max 0 ms; requests := requests w |}).

Definition getItem (k : string) : Async (option string) := fun w =>
  (Return (localStorage w !! k), w).

Definition read_lastApiCallTime : Async Z := fun w =>
  (Return (lastApiCallTime w), w).

Definition write_lastApiCallTime (t : Z) : Async unit := fun w =>
  (Return tt,
   {| localStorage := localStorage w; plantCache := plantCache w;
      lastApiCallTime := t; clock := clock w; requests := requests w |}).

Definition plantCache_get (k : string) : Async value := fun w =>
  (Return (default VUndefined (plantCache w !! k)), w).

(** [localStorage.getItem] answers a string or [null]. *)
Definition item_truthy (o : option string) : bool :=
  match o with Some s => negb (String.eqb s "") | None => false end.

Definition ok (status : Z) : bool := (200 <=? status)%Z && (status <=? 299)%Z.

(** Two branches started together and joined by [Promise.all]: both start
    at the same instant, the join resumes when the slower one has settled.
    The branches of [multiSourceSearch] write different fields and share
    only the request log, which keeps the order in which they were
    started. *)
Definition both {A B} (m1 : Async A) (m2 : Async B) : Async (A * B) := fun w =>
  match m1 w with
  | (Throw e, w1) => (Throw e, w1)
  | (Return a, w1) =>
      let restart :=
        {| localStorage := localStorage w1; plantCache := plantCache w1;
           lastApiCallTime := lastApiCallTime w1;
           clock := clock w; requests := requests w1 |} in
      match m2 restart with
      | (Throw e, w2) => (Throw e, w2)
      | (Return b, w2) =>
          (Return (a, b),
           {| localStorage := localStorage w2; plantCache := plantCache w2;
              lastApiCallTime := lastApiCallTime w2;
              clock := Z.max (clock w1) (clock w2); requests := requests w2 |})
      end
  end.

(** ** Configuration *)

(** [API_SOURCES]: the [enabled] flag of each source. *)
Record Sources := {
  perenual_enabled : bool;
  inaturalist_enabled : bool;
  toxicshrooms_enabled : bool
}.

Definition API_BASE_URL : string := "https://perenual.com/api/v2".
Definition API_COOLDOWN_MS : Z := 2000.
Definition CACHE_TTL_MS : Z := 86400000.

Definition CURATED_PLANT_IDS : list Z :=
  [1; 2; 3; 4; 5; 6; 7; 8; 9; 10;
   50; 100; 150; 200; 250; 300; 350; 400;
   500; 600; 700; 800; 900; 1000;
   1100; 1200; 1300; 1400; 1500; 1600;
   2000; 2500; 3000; 3500; 4000; 4500;
   5000; 5500; 6000; 6500; 7000; 7500;
   8000; 8500; 9000; 9500; 10000].

Definition RATE_LIMIT_MESSAGE : string :=
  "🚫 API rate limit exceeded. The free tier allows limited requests per day. Please wait a few minutes and try again, or consider upgrading your API plan at https://perenual.com".

Definition NO_CACHED_PLANTS_MESSAGE : string :=
  "🚫 API rate limit exceeded and no cached plants available. Please wait a few minutes and try again, or try the 🍄 Random Mushroom button (uses different APIs).".

(** The [filters] argument of [getPlantList]; an absent string filter is
    the empty string, an absent flag is [None]. *)
Record Filters := {
  search : string;
  edible : option bool;
  poisonous : option bool;
  indoor : option bool;
  cycle : string;
  watering : string;
  sunlight : string;
  hardiness : string
}.

Definition search_only (q : string) : Filters :=
  {| search := q; edible := None; poisonous := None; indoor := None;
     cycle := ""; watering := ""; sunlight := ""; hardiness := "" |}.

(** The [options] argument of [multiSourceSearch], defaults applied. *)
Record Options := {
  includePerenual : bool;
  includeINaturalist : bool;
  includeFungi : bool
}.

Definition default_options : Options :=
  {| includePerenual := true; includeINaturalist := true; includeFungi := false |}.

(** The object built and returned by [multiSourceSearch]. *)
Record SearchResults := {
  perenual : value;
  inaturalist : value;
  toxicshrooms : value;
  total : value
}.

(** ** The data access functions *)

Section DataAccess.

Context `{StringMethods}.

(** Engine built-ins. *)
Variable encodeURIComponent : string -> string.
Variable JSON_parse : string -> outcome value.
Variable JSON_stringify : value -> string.
(** Whether [localStorage.setItem(k, v)] is refused (quota exceeded). *)
Variable setItem_refused : gmap string string -> string -> string -> bool.

(** [config.js] and the [API_SOURCES] table. *)
Variable PERENUAL_API_KEY : string.
Variable API_SOURCES : Sources.

(** The remote servers: the reply to the [n]-th call of [fetch]
    (counting from 0) as a function of its address. *)
Variable server : nat -> string -> Reply.

(** [await fetch(url)] *)
Definition fetch (address : string) : Async (Z * string) := fun w =>
  let reply := server (length (requests w)) address in
  let w' :=
    {| localStorage := localStorage w; plantCache := plantCache w;
       lastApiCallTime := lastApiCallTime w;
       clock := clock w + Z.of_N (latency reply);
       requests := requests w ++ [{| url := address; issued_at := clock w |}] |} in
  match answer reply with
  | Unreachable e => (Throw e, w')
  | Response status body => (Return (status, body), w')
  end.

Definition setItem (k v : string) : Async unit := fun w =>
  if setItem_refused (localStorage w) k v
  then (Throw (Error "QuotaExceededError"), w)
  else (Return tt,
        {| localStorage := <[k := v]> (localStorage w); plantCache := plantCache w;
           lastApiCallTime := lastApiCallTime w;
           clock := clock w; requests := requests w |}).

Definition flag (name : string) (f : option bool) : string :=
  match f with
  | Some b => "&" +:+ name +:+ "=" +:+ (if b then "1" else "0")
  | None => ""
  end.

Definition param (name value : string) : string :=
  if String.eqb value "" then "" else "&" +:+ name +:+ "=" +:+ value.

(** [getPlantList(page, filters)] *)
Definition getPlantList (page : Z) (filters : Filters) : Async value :=
  let address :=
    API_BASE_URL +:+ "/species-list?key=" +:+ PERENUAL_API_KEY
    +:+ "&page=" +:+ string_of_Z page +:+ "&per_page=10"
    +:+ (if String.eqb (search filters) "" then ""
         else "&q=" +:+ encodeURIComponent (search filters))
    +:+ flag "edible" (edible filters)
    +:+ flag "poisonous" (poisonous filters)
    +:+ flag "indoor" (indoor filters)
    +:+ param "cycle" (cycle filters)
    +:+ param "watering" (watering filters)
    +:+ param "sunlight" (sunlight filters)
    +:+ param "hardiness" (hardiness filters) in
  response ← fetch address;
  let '(status, body) := response in
  if negb (ok status) then
    if (status =? 429)%Z then throw (Error RATE_LIMIT_MESSAGE)
    else throw (Error ("Plant list request failed: " +:+ string_of_Z status))
  else lift (JSON_parse body).

(** The cache test at the head of [getPlantDetails]:
    [cached && cacheTime] and [now - parseInt(cacheTime) < 86400000]. *)
Definition cache_fresh (cached cacheTime : option string) (now : Z) : bool :=
  item_truthy cached && item_truthy cacheTime &&
  match parseInt (default "" cacheTime) with
  | Some t => (now - t <? CACHE_TTL_MS)%Z
  | None => false
  end.

Definition isNonPerenual (plantId : value) : bool :=
  match plantId with
  | VStr s => startsWith s "inat_" || startsWith s "toxic_"
              || startsWith s "gbif_" || startsWith s "trefle_"
  | _ => false
  end.

Definition cacheKey_of (plantId : value) : string :=
  "plant_" +:+ js_toString plantId.

(** How one turn of the retry loop ends when it does not throw. *)
Inductive Turn : Type :=
| Finished (formatted : value)
| Continue.

(** The body of the [try] block of one attempt. *)
Definition attempt_body (plantId : value) (retries attempt : Z) : Async Turn :=
  now ← Date_now;
  last ← read_lastApiCallTime;
  let timeSinceLastCall := now - last in
  _ ← (if (timeSinceLastCall <? API_COOLDOWN_MS)%Z
       then sleep (API_COOLDOWN_MS - timeSinceLastCall)
       else mret tt);
  stamp ← Date_now;
  _ ← write_lastApiCallTime stamp;
  let address :=
    API_BASE_URL +:+ "/species/details/" +:+ js_toString plantId
    +:+ "?key=" +:+ PERENUAL_API_KEY in
  response ← fetch address;
  let '(status, body) := response in
  if negb (ok status) then
    if (status =? 429)%Z then throw (Error RATE_LIMIT_MESSAGE)
    else if (attempt =? retries)%Z
    then throw (Error ("Plant details failed: " +:+ string_of_Z status))
    else (_ ← sleep 500; mret Continue)
  else
    data ← lift (JSON_parse body);
    _ ← lift (get data "common_name");
    id ← lift (get data "id");
    if negb (truthy id) then throw (Error "Invalid plant data: missing ID")
    else
      formatted ← lift (formatPlantData encodeURIComponent data);
      _ ← try_catch
            (_ ← setItem (cacheKey_of plantId) (JSON_stringify formatted);
             setItem (cacheKey_of plantId +:+ "_time") (string_of_Z now))
            (fun _ => mret tt);
      mret (Finished formatted).

(** [for (let attempt = 1; attempt <= retries; attempt++) { try ... catch ... }];
    [turns] counts the turns that remain. *)
Fixpoint attempts (plantId : value) (retries attempt : Z) (turns : nat)
    : Async value :=
  match turns with
  | O => mret VUndefined
  | S turns' =>
      turn ← try_catch (attempt_body plantId retries attempt)
               (fun error =>
                  if (attempt =? retries)%Z then throw error
                  else (_ ← sleep 500; mret Continue));
      match turn with
      | Finished formatted => mret formatted
      | Continue => attempts plantId retries (attempt + 1) turns'
      end
  end.

(** [getPlantDetails(plantId, retries)] *)
Definition getPlantDetails (plantId : value) (retries : Z) : Async value :=
  let cacheKey := cacheKey_of plantId in
  cached ← getItem cacheKey;
  cacheTime ← getItem (cacheKey +:+ "_time");
  now ← Date_now;
  if cache_fresh cached cacheTime now then lift (JSON_parse (default "" cached))
  else if isNonPerenual plantId then
    cachedPlant ← plantCache_get (js_toString plantId);
    if truthy cachedPlant then mret cachedPlant
    else throw (Error ("Cannot fetch details for non-Perenual plant "
                       +:+ js_toString plantId
                       +:+ ". Please use cached data or loadPlantDetails with source parameter."))
  else attempts plantId retries 1 (Z.to_nat retries).

(** The ids pushed to [cachedIds] by the first loop of [getRandomPlant]. *)
Definition fresh_ids (w : World) : list Z :=
  filter (fun id =>
            cache_fresh (localStorage w !! cacheKey_of (VNum id))
                        (localStorage w !! (cacheKey_of (VNum id) +:+ "_time"))
                        (clock w) = true)
         CURATED_PLANT_IDS.

(** The second loop of [getRandomPlant]: the first curated id whose
    entry is a non-empty string that [JSON.parse] accepts. *)
Fixpoint any_cached (ids : list Z) : Async value :=
  match ids with
  | [] => throw (Error NO_CACHED_PLANTS_MESSAGE)
  | id :: rest =>
      cached ← getItem (cacheKey_of (VNum id));
      if item_truthy cached then
        try_catch (lift (JSON_parse (default "" cached)))
                  (fun _ => any_cached rest)
      else any_cached rest
  end.

(** [getRandomPlant()]; [random n] stands for
    [Math.floor(Math.random() * n)], a number below [n]. *)
Definition getRandomPlant (random : nat -> nat) : Async value := fun w =>
  let cachedIds := fresh_ids w in
  let pool := if (0 <? length cachedIds)%nat then cachedIds else CURATED_PLANT_IDS in
  let randomId := default 0 (pool !! (random (length pool) `mod` length pool)%nat) in
  try_catch
    (plantDetails ← getPlantDetails (VNum randomId) 1;
     _ ← lift (get plantDetails "common_name");
     mret plantDetails)
    (fun error =>
       if includes (message error) "rate limit"
       then any_cached CURATED_PLANT_IDS
       else throw error) w.

Definition no_taxa : value :=
  VObj [("results", VArr []); ("total_results", VNum 0)].

(** [searchINaturalist(query, page, taxonId, perPage)]; a [taxonId] of
    [null] is [None]. *)
Definition searchINaturalist (query : string) (page : Z) (taxonId : option Z)
    (perPage : Z) : Async value :=
  if negb (inaturalist_enabled API_SOURCES) then mret no_taxa
  else
    try_catch
      (let address :=
         "https://api.inaturalist.org/v1/taxa?q=" +:+ encodeURIComponent query
         +:+ "&page=" +:+ string_of_Z page
         +:+ "&per_page=" +:+ string_of_Z (Z.min perPage 200)
         +:+ match taxonId with
             | Some t => if (t =? 0)%Z then "" else "&taxon_id=" +:+ string_of_Z t
             | None => ""
             end
         +:+ "&order_by=observations_count&order=desc" in
       response ← fetch address;
       let '(status, body) := response in
       if negb (ok status)
       then throw (Error ("iNaturalist search failed: " +:+ string_of_Z status))
       else
         data ← lift (JSON_parse body);
         results ← lift (get data "results");
         mret (VObj [("results", results ||| VArr []);
                     ("total_results", get_opt data "total_results" ||| VNum 0)]))
      (fun _ => mret no_taxa).

(** [getToxicShrooms(type)]; a [type] of [null] is the empty string. *)
Definition getToxicShrooms (type : string) : Async value :=
  if negb (toxicshrooms_enabled API_SOURCES) then mret (VArr [])
  else
    try_catch
      (let address :=
         "https://toxicshrooms.vercel.app/api/mushrooms"
         +:+ (if String.eqb type "" then "" else "/" +:+ type) in
       response ← fetch address;
       let '(status, body) := response in
       if negb (ok status)
       then throw (Error ("Toxic Shrooms failed: " +:+ string_of_Z status))
       else lift (JSON_parse body))
      (fun _ => mret (VArr [])).

(** [xs.map(f)] on a value that need not be an array. *)
Definition call_map (xs : value) (f : value -> outcome value) : outcome value :=
  match xs with
  | VArr l => VArr <$> mapM_outcome f l
  | VUndefined | VNull => Throw (cannot_read "map")
  | _ => Throw (not_a_function "map")
  end.

(** [x && x.toLowerCase().includes(q)], as a truth value. *)
Definition name_matches (x : value) (q : string) : outcome bool :=
  if truthy x then lowered ← call_toLowerCase x; mret (includes lowered q)
  else mret false.

(** The callback of [data.filter] in [multiSourceSearch]. *)
Definition shroom_matches (query : string) (shroom : value) : outcome bool :=
  name ← get shroom "name";
  by_name ← name_matches name (toLowerCase query);
  if by_name : bool then mret true
  else name_matches (get_opt shroom "commonname") (toLowerCase query).

Definition call_filter (xs : value) (f : value -> outcome bool) : outcome value :=
  match xs with
  | VArr l => VArr <$> filterM f l
  | VUndefined | VNull => Throw (cannot_read "filter")
  | _ => Throw (not_a_function "filter")
  end.

(** The three branches of [multiSourceSearch]: each is the promise pushed
    to [searchPromises], with its [then] and [catch] callbacks, and
    returns the fields it assigns ([None]: nothing assigned). *)
Definition perenual_branch (query : string) (options : Options)
    : Async (option (value * value)) :=
  if includePerenual options && perenual_enabled API_SOURCES then
    try_catch
      (data ← getPlantList 1 (search_only query);
       listed ← lift (get data "data");
       mret (Some (listed ||| VArr [],
                   js_add (VNum 0) (get_opt data "total" ||| VNum 0))))
      (fun _ => mret None)
  else mret None.

Definition inaturalist_branch (query : string) (options : Options)
    : Async (option value) :=
  if includeINaturalist options && inaturalist_enabled API_SOURCES then
    try_catch
      (data ← searchINaturalist query 1
                (if includeFungi options then Some 47170 else None) 30;
       results ← lift (get data "results");
       if nullish results then mret (Some (VArr []))
       else
         mapped ← lift (call_map results (formatINaturalistData encodeURIComponent));
         mret (Some (mapped ||| VArr [])))
      (fun _ => mret None)
  else mret None.

Definition toxicshrooms_branch (query : string) (options : Options)
    : Async (option value) :=
  if includeFungi options && toxicshrooms_enabled API_SOURCES then
    try_catch
      (data ← getToxicShrooms "";
       filtered ← (if String.eqb query "" then mret data
                   else lift (call_filter data (shroom_matches query)));
       mapped ← lift (call_map filtered (formatToxicShroomData encodeURIComponent));
       mret (Some mapped))
      (fun _ => mret None)
  else mret None.

(** [multiSourceSearch(query, options)] *)
Definition multiSourceSearch (query : string) (options : Options)
    : Async SearchResults :=
  settled ← both (perenual_branch query options)
                 (both (inaturalist_branch query options)
                       (toxicshrooms_branch query options));
  let '(from_perenual, (from_inaturalist, from_toxicshrooms)) := settled in
  mret {| perenual := default (VArr []) (fst <$> from_perenual);
          inaturalist := default (VArr []) from_inaturalist;
          toxicshrooms := default (VArr []) from_toxicshrooms;
          total := default (VNum 0) (snd <$> from_perenual) |}.

End DataAccess.

(** ** Deduplication *)

(** The key of [combineSearchResults]:
    [(item.scientific_name || item.common_name || '').toLowerCase().trim()] *)
Definition dedup_key `{StringMethods} (item : value) : outcome string :=
  scientific_name ← get item "scientific_name";
  lowered ← call_toLowerCase
              (scientific_name ||| get_opt item "common_name" ||| VStr "");
  mret (trim lowered).

(** [{ ...item, source }] *)
Definition with_source (item : value) (source : string) : value :=
  VObj (set_field "source" (VStr source) (spread item)).

(** The variables [combined] and [seen]. *)
Record Combining := { combined : list value; seen : gset string }.

(** One call of the [forEach] callback of [addResults]. *)
Definition add_item `{StringMethods} (source : string) (st : Combining)
    (item : value)
    : outcome Combining :=
  key ← dedup_key item;
  if negb (String.eqb key "") && negb (bool_decide (key ∈ seen st)) then
    mret {| combined := combined st ++ [with_source item source];
            seen := {[key]} ∪ seen st |}
  else if String.eqb key "" then
    mret {| combined := combined st ++ [with_source item source];
            seen := seen st |}
  else mret st.

(** [addResults(results, source)] *)
Definition addResults `{StringMethods} (results : value) (source : string)
    (st : Combining)
    : outcome Combining :=
  match results with
  | VArr items => foldM (add_item source) st items
  | VUndefined | VNull => Throw (cannot_read "forEach")
  | _ => Throw (not_a_function "forEach")
  end.

(** [combineSearchResults(multiSourceResults)] *)
Definition combineSearchResults `{StringMethods}
    (multiSourceResults : SearchResults)
    : outcome (list value) :=
  st ← addResults (perenual multiSourceResults) "perenual"
         {| combined := []; seen := ∅ |};
  st ← addResults (inaturalist multiSourceResults) "inaturalist" st;
  st ← addResults (toxicshrooms multiSourceResults) "toxicshrooms" st;
  mret (combined st).

(** ** Notions used to state the properties *)

(** *** The cache *)

(** [localStorage] holds an entry for [key] written at [writtenAt]: a
    non-empty payload under [key] and, under [key_time], a time stamp
    that [parseInt] reads as [writtenAt]. *)
Definition cache_entry (store : gmap string string) (key payload : string)
    (writtenAt : Z) : Prop :=
  store !! key = Some payload /\ payload <> "" /\
  exists stamp, store !! (key +:+ "_time") = Some stamp /\
                parseInt stamp = Some writtenAt.

(** The two [setItem] calls that end a successful fetch at time [now]. *)
Definition cache_put (key payload : string) (now : Z) (store : gmap string string)
    : gmap string string :=
  <[key +:+ "_time" := string_of_Z now]> (<[key := payload]> store).

(** The first curated id, in the order of the list, whose entry the second
    loop of [getRandomPlant] can use. *)
Fixpoint first_cached (parse : string -> outcome value)
    (store : gmap string string) (ids : list Z) : option (Z * value) :=
  match ids with
  | [] => None
  | id :: rest =>
      match store !! cacheKey_of (VNum id) with
      | Some payload =>
          if negb (String.eqb payload "") then
            match parse payload with
            | Return v => Some (id, v)
            | Throw _ => first_cached parse store rest
            end
          else first_cached parse store rest
      | None => first_cached parse store rest
      end
  end.

(** The id drawn by [getRandomPlant]. *)
Definition drawn_id (random : nat -> nat) (w : World) : Z :=
  let pool := if (0 <? length (fresh_ids w))%nat then fresh_ids w
              else CURATED_PLANT_IDS in
  default 0 (pool !! (random (length pool) `mod` length pool)%nat).

(** *** Requests *)

Definition details_url (key : string) (plantId : value) : string :=
  API_BASE_URL +:+ "/species/details/" +:+ js_toString plantId +:+ "?key=" +:+ key.

(** The calls of [fetch] made between two worlds. *)
Definition new_requests (before after : World) : list Request :=
  drop (length (requests before)) (requests after).

(** Each request is issued at least the cooldown after the one before it,
    the first one after [last]. *)
Fixpoint spaced_from (last : Z) (rs : list Request) : Prop :=
  match rs with
  | [] => True
  | r :: rest => last + API_COOLDOWN_MS <= issued_at r /\ spaced_from (issued_at r) rest
  end.

Definition last_issue (last : Z) (rs : list Request) : Z :=
  fold_left (fun _ r => issued_at r) rs last.

(** The instant at which an attempt of [getPlantDetails] started in [w]
    hands its request to [fetch]. *)
Definition issue_time (w : World) : Z :=
  Z.max (clock w) (lastApiCallTime w + API_COOLDOWN_MS).

Inductive Source : Type := Perenual | INaturalist | ToxicShrooms.

Definition source_of (address : string) : option Source :=
  if startsWith address "https://perenual.com/" then Some Perenual
  else if startsWith address "https://api.inaturalist.org/" then Some INaturalist
  else if startsWith address "https://toxicshrooms.vercel.app/" then Some ToxicShrooms
  else None.

Definition is_call_to (s : Source) (r : Request) : bool :=
  match source_of (url r), s with
  | Some Perenual, Perenual
  | Some INaturalist, INaturalist
  | Some ToxicShrooms, ToxicShrooms => true
  | _, _ => false
  end.

Definition calls_to (s : Source) (rs : list Request) : nat :=
  length (List.filter (is_call_to s) rs).

(** Whether [multiSourceSearch] calls a source: its flag in the
    configuration and its switch in the options. *)
Definition selected (sources : Sources) (options : Options) (s : Source) : bool :=
  match s with
  | Perenual => includePerenual options && perenual_enabled sources
  | INaturalist => includeINaturalist options && inaturalist_enabled sources
  | ToxicShrooms => includeFungi options && toxicshrooms_enabled sources
  end.

Definition enabled (sources : Sources) (s : Source) : bool :=
  match s with
  | Perenual => perenual_enabled sources
  | INaturalist => inaturalist_enabled sources
  | ToxicShrooms => toxicshrooms_enabled sources
  end.

Definition result_of (s : Source) (r : SearchResults) : value :=
  match s with
  | Perenual => perenual r
  | INaturalist => inaturalist r
  | ToxicShrooms => toxicshrooms r
  end.

(** *** Failures *)

(** A fetch fails: the server is unreachable or answers outside 2xx. *)
Definition failing (a : Answer) : bool :=
  match a with
  | Unreachable _ => true
  | Response status _ => negb (ok status)
  end.

(** The error a failed last attempt of [getPlantDetails] throws. *)
Definition error_of (a : Answer) : JsError :=
  match a with
  | Unreachable e => e
  | Response status _ =>
      if (status =? 429)%Z then Error RATE_LIMIT_MESSAGE
      else Error ("Plant details failed: " +:+ string_of_Z status)
  end.

(** *** Deduplication, after the specification *)

(** The name a record is known by: its scientific name, or its common
    name when the scientific name is absent; [None] when it has neither. *)
Definition spec_name (item : value) : option value :=
  if truthy (get_opt item "scientific_name") then Some (get_opt item "scientific_name")
  else if truthy (get_opt item "common_name") then Some (get_opt item "common_name")
  else None.

(** The dedup key of the specification: that name lower-cased and
    trimmed, empty when there is no name. *)
Definition spec_key `{StringMethods} (item : value) : string :=
  match spec_name item with
  | Some (VStr name) => trim (toLowerCase name)
  | _ => ""
  end.

(** A record whose key the specification defines: it is not [null] or
    [undefined] and the name it is known by, if any, is a string. *)
Definition named (item : value) : Prop :=
  nullish item = false /\
  match spec_name item with
  | Some (VStr _) | None => True
  | Some _ => False
  end.

(** The records of the three sources in priority order, each with the
    source it comes from. *)
Definition by_priority (ps ns ts : list value) : list (string * value) :=
  map (pair "perenual") ps ++ map (pair "inaturalist") ns
  ++ map (pair "toxicshrooms") ts.

(** The merge of the specification: a record is kept, tagged with its
    source, when its key is empty or no record before it has the key. *)
Fixpoint merge_spec `{StringMethods} (earlier : list string)
    (records : list (string * value))
    : list value :=
  match records with
  | [] => []
  | (source, item) :: rest =>
      if String.eqb (spec_key item) ""
      then with_source item source :: merge_spec earlier rest
      else if bool_decide (spec_key item ∈ earlier)
      then merge_spec earlier rest
      else with_source item source :: merge_spec (spec_key item :: earlier) rest
  end.

(** ** Sample instances

    Stand-ins for the engine and the servers, used to run the functions
    on concrete inputs. *)

Definition sample_encode (s : string) : string := s.

(** The string methods on ASCII strings. *)
Definition ascii_methods : StringMethods :=
  {| toLowerCase := ascii_toLowerCase; trim := ascii_trim;
     replace_spaces := ascii_replace_spaces;
     toLowerCase_empty := eq_refl; trim_empty := eq_refl |}.

(** Reads any text not starting with [!] as a record with that name. *)
Definition sample_parse (s : string) : outcome value :=
  match s with
  | EmptyString => Throw (SyntaxError "Unexpected end of JSON input")
  | String "!" _ => Throw (SyntaxError "Unexpected token !")
  | _ => Return (VObj [("id", VNum 1); ("common_name", VStr s)])
  end.

Definition sample_stringify (v : value) : string :=
  js_toString (get_opt v "common_name").

Definition never_refused (_ : gmap string string) (_ _ : string) : bool := false.

Definition all_enabled : Sources :=
  {| perenual_enabled := true; inaturalist_enabled := true;
     toxicshrooms_enabled := true |}.

(** A server that answers every request with the same status and body
    after 100 ms. *)
Definition constant_server (status : Z) (body : string) (_ : nat) (_ : string)
    : Reply :=
  {| latency := 100; answer := Response status body |}.

Definition world_at (now : Z) (store : gmap string string) : World :=
  {| localStorage := store; plantCache := ∅; lastApiCallTime := 0;
     clock := now; requests := [] |}.

(** ** One attempt of [getPlantDetails], step by step *)

Section Attempt.

Context `{StringMethods}.

Variable encodeURIComponent : string -> string.
Variable JSON_parse : string -> outcome value.
Variable JSON_stringify : value -> string.
Variable setItem_refused : gmap string string -> string -> string -> bool.
Variable PERENUAL_API_KEY : string.
Variable server : nat -> string -> Reply.

(** The reply to the request of an attempt started in [w]. *)
Definition attempt_answer (plantId : value) (w : World) : Answer :=
  answer (server (length (requests w)) (details_url PERENUAL_API_KEY plantId)).

(** The world once an attempt started in [w] has waited for the cooldown,
    handed its request to [fetch] and received the reply. *)
Definition after_attempt (plantId : value) (w : World) : World :=
  {| localStorage := localStorage w; plantCache := plantCache w;
     lastApiCallTime := issue_time w;
     clock := issue_time w
              + Z.of_N (latency (server (length (requests w))
                                   (details_url PERENUAL_API_KEY plantId)));
     requests := requests w ++ [{| url := details_url PERENUAL_API_KEY plantId;
                                   issued_at := issue_time w |}] |}.

(** What [attempt_body] does with the reply; [now] is the time read at
    the head of the attempt. *)
Definition after_reply (plantId : value) (retries attempt : Z) (now : Z)
    (a : Answer) : Async Turn :=
  match a with
  | Unreachable e => throw e
  | Response status body =>
      if negb (ok status) then
        if (status =? 429)%Z then throw (Error RATE_LIMIT_MESSAGE)
        else if (attempt =? retries)%Z
        then throw (Error ("Plant details failed: " +:+ string_of_Z status))
        else (_ ← sleep 500; mret Continue)
      else
        data ← lift (JSON_parse body);
        _ ← lift (get data "common_name");
        id ← lift (get data "id");
        if negb (truthy id) then throw (Error "Invalid plant data: missing ID")
        else
          formatted ← lift (formatPlantData encodeURIComponent data);
          _ ← try_catch
                (_ ← setItem setItem_refused (cacheKey_of plantId)
                       (JSON_stringify formatted);
                 setItem setItem_refused (cacheKey_of plantId +:+ "_time")
                   (string_of_Z now))
                (fun _ => mret tt);
          mret (Finished formatted)
  end.

End Attempt.

(** ** Further notions *)

(** The read of the cache at the head of [getPlantDetails]: the payload
    under [key] when the test [cache_fresh] lets it through. *)
Definition cached_read (store : gmap string string) (key : string) (now : Z)
    : option string :=
  if cache_fresh (store !! key) (store !! (key +:+ "_time")) now
  then store !! key else None.

(** The address [getPlantList] hands to [fetch]. *)
Definition list_url (encode : string -> string) (key : string) (page : Z)
    (filters : Filters) : string :=
  API_BASE_URL +:+ "/species-list?key=" +:+ key
  +:+ "&page=" +:+ string_of_Z page +:+ "&per_page=10"
  +:+ (if String.eqb (search filters) "" then ""
       else "&q=" +:+ encode (search filters))
  +:+ flag "edible" (edible filters)
  +:+ flag "poisonous" (poisonous filters)
  +:+ flag "indoor" (indoor filters)
  +:+ param "cycle" (cycle filters)
  +:+ param "watering" (watering filters)
  +:+ param "sunlight" (sunlight filters)
  +:+ param "hardiness" (hardiness filters).

(** A store with two entries written at time 0 and a world a little more
    than a day later, where both are stale. *)
Definition stale_store : gmap string string :=
  cache_put "plant_2" "Tulip" 0 (cache_put "plant_1" "Rose" 0 ∅).

Definition stale_world : World := world_at 100000000 stale_store.

(** *** The search, source by source *)

(** The world once [fetch] has answered a request for [address] made in
    [w]. *)
Definition fetched (server : nat -> string -> Reply) (address : string)
    (w : World) : World :=
  {| localStorage := localStorage w; plantCache := plantCache w;
     lastApiCallTime := lastApiCallTime w;
     clock := clock w + Z.of_N (latency (server (length (requests w)) address));
     requests := requests w ++ [{| url := address; issued_at := clock w |}] |}.

(** The address [searchINaturalist] hands to [fetch]. *)
Definition taxa_url (encode : string -> string) (query : string) (page : Z)
    (taxonId : option Z) (perPage : Z) : string :=
  "https://api.inaturalist.org/v1/taxa?q=" +:+ encode query
  +:+ "&page=" +:+ string_of_Z page
  +:+ "&per_page=" +:+ string_of_Z (Z.min perPage 200)
  +:+ match taxonId with
      | Some t => if (t =? 0)%Z then "" else "&taxon_id=" +:+ string_of_Z t
      | None => ""
      end
  +:+ "&order_by=observations_count&order=desc".

(** The address [getToxicShrooms] hands to [fetch]. *)
Definition shrooms_url (type : string) : string :=
  "https://toxicshrooms.vercel.app/api/mushrooms"
  +:+ (if String.eqb type "" then "" else "/" +:+ type).

(** A promise with a [catch] that only logs: the value, if any. *)
Definition settle {A} (m : outcome A) : option A :=
  match m with Return a => Some a | Throw _ => None end.

(** What [searchINaturalist] returns for a reply. *)
Definition taxa_of (parse : string -> outcome value) (a : Answer) : value :=
  match a with
  | Unreachable _ => no_taxa
  | Response status body =>
      if ok status then
        default no_taxa
          (settle (data ← parse body;
                   results ← get data "results";
                   mret (VObj [("results", results ||| VArr []);
                               ("total_results",
                                get_opt data "total_results" ||| VNum 0)])))
      else no_taxa
  end.

(** What [getToxicShrooms] returns for a reply. *)
Definition shrooms_of (parse : string -> outcome value) (a : Answer) : value :=
  match a with
  | Unreachable _ => VArr []
  | Response status body =>
      if ok status then default (VArr []) (settle (parse body)) else VArr []
  end.

(** What the [then] callbacks of [multiSourceSearch] assign, from the
    reply to the request of their source. *)
Definition perenual_fields (parse : string -> outcome value) (a : Answer)
    : option (value * value) :=
  match a with
  | Unreachable _ => None
  | Response status body =>
      if ok status then
        settle (data ← parse body;
                listed ← get data "data";
                mret (listed ||| VArr [],
                      js_add (VNum 0) (get_opt data "total" ||| VNum 0)))
      else None
  end.

Definition inaturalist_field `{StringMethods} (encode : string -> string)
    (data : value)
    : option value :=
  settle (results ← get data "results";
          if nullish results then mret (VArr [])
          else
            mapped ← call_map results (formatINaturalistData encode);
            mret (mapped ||| VArr [])).

Definition toxicshrooms_field `{StringMethods} (encode : string -> string)
    (query : string)
    (data : value) : option value :=
  settle (filtered ← (if String.eqb query "" then mret data
                      else call_filter data (shroom_matches query));
          call_map filtered (formatToxicShroomData encode)).

(** The list a source contributes to the results, from the reply to its
    request. *)
Definition source_result `{StringMethods} (encode : string -> string)
    (parse : string -> outcome value) (query : string) (s : Source) (a : Answer)
    : value :=
  match s with
  | Perenual => default (VArr []) (fst <$> perenual_fields parse a)
  | INaturalist => default (VArr []) (inaturalist_field encode (taxa_of parse a))
  | ToxicShrooms =>
      default (VArr []) (toxicshrooms_field encode query (shrooms_of parse a))
  end.

(** The address of the request [multiSourceSearch] makes to a source. *)
Definition source_url (encode : string -> string) (key query : string)
    (options : Options) (s : Source) : string :=
  match s with
  | Perenual => list_url encode key 1 (search_only query)
  | INaturalist =>
      taxa_url encode query 1 (if includeFungi options then Some 47170 else None) 30
  | ToxicShrooms => shrooms_url ""
  end.

Definition one_if (b : bool) : nat := if b then 1%nat else 0%nat.

(** The position in the request log of that request: the sources are
    called in the order Perenual, iNaturalist, Toxic Shrooms. *)
Definition request_index (sources : Sources) (options : Options) (w : World)
    (s : Source) : nat :=
  match s with
  | Perenual => length (requests w)
  | INaturalist => length (requests w) + one_if (selected sources options Perenual)
  | ToxicShrooms =>
      length (requests w) + one_if (selected sources options Perenual)
      + one_if (selected sources options INaturalist)
  end.

(** The requests of one call of [multiSourceSearch] started at [now]. *)
Definition search_requests (encode : string -> string) (key : string)
    (sources : Sources) (query : string) (options : Options) (now : Z)
    : list Request :=
  flat_map (fun s =>
              if selected sources options s
              then [{| url := source_url encode key query options s;
                       issued_at := now |}]
              else [])
           [Perenual; INaturalist; ToxicShrooms].

(** A configuration with iNaturalist switched off. *)
Definition inaturalist_off : Sources :=
  {| perenual_enabled := true; inaturalist_enabled := false;
     toxicshrooms_enabled := true |}.

(** ** The other data access functions *)

(** [v[i]] for a computed index [i]. *)
Definition get_index (v i : value) : value :=
  match v, i with
  | VArr l, VNum n =>
      if (0 <=? n)%Z then default VUndefined (l !! Z.to_nat n) else VUndefined
  | VStr s, VNum n =>
      if (0 <=? n)%Z then default VUndefined (chars s !! Z.to_nat n) else VUndefined
  | VObj fs, _ => assoc (js_toString i) fs
  | _, _ => VUndefined
  end.

(** [Math.floor(Math.random() * n)]; [random k] stands for
    [Math.floor(Math.random() * k)] at one place of the program. *)
Definition random_index (random : Z -> Z) (n : value) : value :=
  match js_toNumber n with
  | Some k => VNum (random k)
  | None => VNaN
  end.

(** [!xs || xs.length === 0] *)
Definition none_returned (xs : value) : bool :=
  negb (truthy xs)
  || match get_opt xs "length" with VNum n => Z.eqb n 0 | _ => false end.

Definition no_pests : value := VObj [("data", VArr []); ("total", VNum 0)].

Section OtherDataAccess.

Context `{StringMethods}.

Variable encodeURIComponent : string -> string.
Variable JSON_parse : string -> outcome value.
Variable PERENUAL_API_KEY : string.
Variable API_SOURCES : Sources.
Variable server : nat -> string -> Reply.

(** [getDiseasePestInfo(searchQuery, page)] *)
Definition getDiseasePestInfo (searchQuery : string) (page : Z) : Async value :=
  try_catch
    (let address :=
       API_BASE_URL +:+ "/pest-disease-list?key=" +:+ PERENUAL_API_KEY
       +:+ "&page=" +:+ string_of_Z page
       +:+ (if String.eqb searchQuery "" then ""
            else "&q=" +:+ encodeURIComponent searchQuery) in
     response ← fetch server address;
     let '(status, body) := response in
     if negb (ok status)
     then throw (Error ("Disease/pest request failed: " +:+ string_of_Z status))
     else lift (JSON_parse body))
    (fun _ => mret no_pests).

(** [getINaturalistObservations(taxonId, page)] *)
Definition getINaturalistObservations (taxonId : value) (page : Z) : Async value :=
  if negb (inaturalist_enabled API_SOURCES) then mret no_taxa
  else
    try_catch
      (let address :=
         "https://api.inaturalist.org/v1/observations?taxon_id="
         +:+ js_toString taxonId +:+ "&page=" +:+ string_of_Z page
         +:+ "&per_page=20&order=desc&order_by=created_at" in
       response ← fetch server address;
       let '(status, body) := response in
       if negb (ok status)
       then throw (Error ("iNaturalist observations failed: " +:+ string_of_Z status))
       else lift (JSON_parse body))
      (fun _ => mret no_taxa).

(** [getRandomToxicShroom()]; the [catch] block rethrows. *)
Definition getRandomToxicShroom (random : Z -> Z) : Async value :=
  if negb (toxicshrooms_enabled API_SOURCES)
  then throw (Error "Toxic shrooms API is disabled")
  else
    response ← fetch server "https://toxicshrooms.vercel.app/api/mushrooms";
    let '(status, body) := response in
    if negb (ok status)
    then throw (Error ("Toxic shrooms API failed: " +:+ string_of_Z status))
    else
      mushrooms ← lift (JSON_parse body);
      if none_returned mushrooms
      then throw (Error "No mushrooms returned from API")
      else
        let randomIndex := random_index random (get_opt mushrooms "length") in
        let randomMushroom := get_index mushrooms randomIndex in
        _ ← lift (get randomMushroom "name");
        mret randomMushroom.

(** [getRandomINaturalistMushroom()]; [random_page] and [random] are the
    two uses of [Math.random]. *)
Definition getRandomINaturalistMushroom (random_page random : Z -> Z)
    : Async value :=
  if negb (inaturalist_enabled API_SOURCES)
  then throw (Error "iNaturalist API is disabled")
  else
    let randomPage := random_page 50 + 1 in
    results ← searchINaturalist encodeURIComponent JSON_parse API_SOURCES server
                "" randomPage (Some 47170) 30;
    found ← lift (get results "results");
    if none_returned found
    then throw (Error "No fungi found in iNaturalist")
    else
      let randomIndex := random_index random (get_opt found "length") in
      let randomFungi := get_index found randomIndex in
      _ ← lift (get randomFungi "name");
      lift (formatINaturalistData encodeURIComponent randomFungi).

(** [getRandomMushroom()]; [useINaturalist] is [Math.random() < 0.5]. *)
Definition getRandomMushroom (useINaturalist : bool)
    (random_page random_fungus random_shroom : Z -> Z) : Async value :=
  let from_toxicshrooms :=
    toxicShroom ← getRandomToxicShroom random_shroom;
    lift (formatToxicShroomData encodeURIComponent toxicShroom) in
  if useINaturalist && inaturalist_enabled API_SOURCES then
    try_catch (getRandomINaturalistMushroom random_page random_fungus)
      (fun error =>
         if toxicshrooms_enabled API_SOURCES then from_toxicshrooms
         else throw error)
  else if toxicshrooms_enabled API_SOURCES then
    try_catch from_toxicshrooms
      (fun error =>
         if inaturalist_enabled API_SOURCES
         then getRandomINaturalistMushroom random_page random_fungus
         else throw error)
  else throw (Error "No mushroom APIs enabled").

End OtherDataAccess.

(** The addresses of these functions. *)
Definition pests_url (encode : string -> string) (key searchQuery : string)
    (page : Z) : string :=
  API_BASE_URL +:+ "/pest-disease-list?key=" +:+ key
  +:+ "&page=" +:+ string_of_Z page
  +:+ (if String.eqb searchQuery "" then "" else "&q=" +:+ encode searchQuery).

Definition no_sources : Sources :=
  {| perenual_enabled := true; inaturalist_enabled := false;
     toxicshrooms_enabled := false |}.

(** A taxon as iNaturalist returns it and a record of a Perenual list. *)
Definition sample_taxon : value :=
  VObj [("id", VNum 47170); ("name", VStr "Fungi"); ("rank", VStr "kingdom")].

Definition sample_listed : value :=
  VObj [("id", VNum 1); ("common_name", VStr "European Silver Fir");
        ("scientific_name", VArr [VStr "Abies alba"])].

(** A server that cannot be reached. *)
Definition unreachable_server (_ : nat) (_ : string) : Reply :=
  {| latency := 30; answer := Unreachable (TypeError "Failed to fetch") |}.

Definition observations_url (taxonId : value) (page : Z) : string :=
  "https://api.inaturalist.org/v1/observations?taxon_id="
  +:+ js_toString taxonId +:+ "&page=" +:+ string_of_Z page
  +:+ "&per_page=20&order=desc&order_by=created_at".

(** ** JSON texts for the examples *)

Definition quote : string := String "034" EmptyString.

Definition json_string (s : string) : string := quote +:+ s +:+ quote.

(** [{"id":<id>,"common_name":"<name>"}] *)
Definition json_plant (id : Z) (name : string) : string :=
  "{" +:+ json_string "id" +:+ ":" +:+ string_of_Z id +:+ ","
  +:+ json_string "common_name" +:+ ":" +:+ json_string name +:+ "}".

Definition rose_json : string := json_plant 1 "Rose".
Definition tulip_json : string := json_plant 2 "Tulip".

Definition rose : value := VObj [("id", VNum 1); ("common_name", VStr "Rose")].
Definition tulip : value := VObj [("id", VNum 2); ("common_name", VStr "Tulip")].

(** [{"data":[{"id":1,"common_name":"Rose"}],"total":1}] *)
Definition plant_page_json : string :=
  "{" +:+ json_string "data" +:+ ":[" +:+ rose_json +:+ "],"
  +:+ json_string "total" +:+ ":1}".

(** [JSON.parse] on the texts above and on [[{}]] and [[]]: the value the
    engine gives for each of them.  The examples parse no other text. *)
Definition json_samples (s : string) : outcome value :=
  if String.eqb s rose_json then Return rose
  else if String.eqb s tulip_json then Return tulip
  else if String.eqb s plant_page_json
  then Return (VObj [("data", VArr [rose]); ("total", VNum 1)])
  else if String.eqb s "[{}]" then Return (VArr [VObj []])
  else if String.eqb s "[]" then Return (VArr [])
  else Throw (SyntaxError "Unexpected token").

(** A store with two entries in JSON written at time 0 and a world a
    little more than a day later, where both are stale. *)
Definition json_store : gmap string string :=
  cache_put "plant_2" tulip_json 0 (cache_put "plant_1" rose_json 0 ∅).

Definition json_world : World := world_at 100000000 json_store.

(** A network on which iNaturalist cannot be reached and every other
    server answers with the page above. *)
Definition inaturalist_down (_ : nat) (address : string) : Reply :=
  match source_of address with
  | Some INaturalist =>
      {| latency := 30; answer := Unreachable (TypeError "Failed to fetch") |}
  | _ => {| latency := 100; answer := Response 200 plant_page_json |}
  end.

Definition with_fungi : Options :=
  {| includePerenual := true; includeINaturalist := true; includeFungi := true |}.

(** *** Lists, after the specification *)

(** The elements of [l] marked [true] in [keeps]. *)
Definition kept_records (l : list value) (keeps : list bool) : list value :=
  map fst (List.filter snd (combine l keeps)).

(** ** Decimal printing and [parseInt] *)

Lemma parse_digits_acc (d : Decimal.uint) (p : positive) :
  parse_digits digit_of 10 (NilEmpty.string_of_uint d) (Some (Z.pos p))
  = Some (Z.pos (Pos.of_uint_acc d p)).
Proof.
  revert p. induction d; intros p; simpl; try reflexivity;
    rewrite <- IHd; do 2 f_equal;
    match goal with
    | |- context [Z.of_nat (nat_of_ascii ?c)] =>
        let v := eval vm_compute in (Z.of_nat (nat_of_ascii c)) in
        change (Z.of_nat (nat_of_ascii c)) with v
    end; lia.
Qed.

Lemma parse_digits_zero (d : Decimal.uint) :
  parse_digits digit_of 10 (NilEmpty.string_of_uint d) (Some 0)
  = Some (Z.of_N (Pos.of_uint d)).
Proof.
  induction d; simpl; try reflexivity; try assumption;
    apply (parse_digits_acc d).
Qed.

Lemma parse_digits_uint (d : Decimal.uint) :
  d <> Decimal.Nil ->
  parse_digits digit_of 10 (NilEmpty.string_of_uint d) None
  = Some (Z.of_N (Pos.of_uint d)).
Proof.
  destruct d; intros Hd; try congruence; simpl;
    first [ apply (parse_digits_zero d) | apply (parse_digits_acc d) ].
Qed.

Lemma parse_unsigned_uint (d : Decimal.uint) :
  d <> Decimal.Nil ->
  parse_unsigned (NilEmpty.string_of_uint d)
  = parse_digits digit_of 10 (NilEmpty.string_of_uint d) None.
Proof.
  destruct d as [|d|d|d|d|d|d|d|d|d|d]; intros Hd; try congruence;
    try reflexivity; destruct d; reflexivity.
Qed.

Lemma parse_unsigned_pos (p : positive) :
  parse_unsigned (NilZero.string_of_uint (Pos.to_uint p)) = Some (Z.pos p).
Proof.
  pose proof (Unsigned.to_uint_nonnil p) as Hnil.
  assert (NilZero.string_of_uint (Pos.to_uint p)
          = NilEmpty.string_of_uint (Pos.to_uint p)) as ->.
  { destruct (Pos.to_uint p); [congruence | reflexivity ..]. }
  rewrite parse_unsigned_uint, parse_digits_uint by assumption.
  now rewrite Unsigned.of_to.
Qed.

Lemma parseInt_leading_digit (c : ascii) (r : string) :
  digit_of c <> None ->
  parseInt (String c r) = parse_unsigned (String c r).
Proof.
  intros Hc. unfold parseInt.
  destruct c as [[] [] [] [] [] [] [] []]; try reflexivity;
    exfalso; apply Hc; reflexivity.
Qed.

Lemma string_of_uint_leading_digit (d : Decimal.uint) :
  d <> Decimal.Nil ->
  exists c r, NilEmpty.string_of_uint d = String c r /\ digit_of c <> None.
Proof.
  destruct d; intros Hd; try congruence; simpl; eexists _, _;
    (split; [reflexivity | discriminate]).
Qed.

(** The time stamp written by [now.toString()] is read back by [parseInt]. *)
Lemma parseInt_string_of_Z (z : Z) : parseInt (string_of_Z z) = Some z.
Proof.
  destruct z as [|p|p]; [reflexivity | |].
  - unfold string_of_Z. simpl.
    pose proof (Unsigned.to_uint_nonnil p) as Hnil.
    rewrite <- (parse_unsigned_pos p).
    assert (NilZero.string_of_uint (Pos.to_uint p)
            = NilEmpty.string_of_uint (Pos.to_uint p)) as ->.
    { destruct (Pos.to_uint p); [congruence | reflexivity ..]. }
    destruct (string_of_uint_leading_digit _ Hnil) as (c & r & -> & Hc).
    now apply parseInt_leading_digit.
  - unfold string_of_Z. simpl. unfold parseInt. simpl.
    now rewrite parse_unsigned_pos.
Qed.

Lemma string_of_Z_nonempty (z : Z) : string_of_Z z <> "".
Proof.
  intros H. pose proof (parseInt_string_of_Z z) as P. rewrite H in P. discriminate.
Qed.

Open Scope list_scope.

(** ** Worlds *)

Lemma length_append (s t : string) :
  String.length (s +:+ t) = (String.length s + String.length t)%nat.
Proof. induction s as [|c s IH]; simpl; [reflexivity | now rewrite IH]. Qed.

Lemma append_suffix_neq (s : string) (c : ascii) (r : string) :
  s +:+ String c r <> s.
Proof.
  intros H. apply (f_equal String.length) in H.
  rewrite length_append in H. simpl in H. lia.
Qed.

Lemma time_key_neq (key : string) : key +:+ "_time" <> key.
Proof. apply append_suffix_neq. Qed.

Lemma new_requests_app (w w' : World) (rs : list Request) :
  requests w' = requests w ++ rs -> new_requests w w' = rs.
Proof. intros H. unfold new_requests. rewrite H. apply drop_app_length. Qed.

Lemma new_requests_same (w w' : World) :
  requests w' = requests w -> new_requests w w' = [].
Proof. intros H. apply new_requests_app. now rewrite app_nil_r. Qed.

Lemma issue_time_spaced (w : World) :
  lastApiCallTime w + API_COOLDOWN_MS <= issue_time w.
Proof. unfold issue_time. lia. Qed.

Lemma issue_time_clock (w : World) : clock w <= issue_time w.
Proof. unfold issue_time. lia. Qed.

Lemma startsWith_append (p x : string) : startsWith (p +:+ x) p = true.
Proof.
  unfold startsWith. induction p as [|c p IH].
  - destruct x; reflexivity.
  - change (String.prefix (String c p) (String c (p +:+ x)) = true).
    cbn [String.prefix]. destruct (ascii_dec c c); [exact IH | contradiction].
Qed.

(** ** Property access *)

Lemma get_get_opt (v : value) (k : string) :
  nullish v = false -> get v k = Return (get_opt v k).
Proof. unfold get_opt. destruct v; cbn; (discriminate || reflexivity). Qed.

(** ** Properties of the data access functions *)

Section Properties.

Context {methods : StringMethods}.
Variable encodeURIComponent : string -> string.
Variable JSON_parse : string -> outcome value.
Variable JSON_stringify : value -> string.
Variable setItem_refused : gmap string string -> string -> string -> bool.
Variable PERENUAL_API_KEY : string.
Variable API_SOURCES : Sources.
Variable server : nat -> string -> Reply.

(** The functions at the parameters of this section. *)
#[local] Abbreviation getPlantList' :=
  (getPlantList encodeURIComponent JSON_parse PERENUAL_API_KEY server).
#[local] Abbreviation attempt_body' :=
  (attempt_body encodeURIComponent JSON_parse JSON_stringify setItem_refused
     PERENUAL_API_KEY server).
#[local] Abbreviation attempts' :=
  (attempts encodeURIComponent JSON_parse JSON_stringify setItem_refused
     PERENUAL_API_KEY server).
#[local] Abbreviation getPlantDetails' :=
  (getPlantDetails encodeURIComponent JSON_parse JSON_stringify setItem_refused
     PERENUAL_API_KEY server).
#[local] Abbreviation getRandomPlant' :=
  (getRandomPlant encodeURIComponent JSON_parse JSON_stringify setItem_refused
     PERENUAL_API_KEY server).
#[local] Abbreviation searchINaturalist' :=
  (searchINaturalist encodeURIComponent JSON_parse API_SOURCES server).
#[local] Abbreviation getToxicShrooms' :=
  (getToxicShrooms JSON_parse API_SOURCES server).
#[local] Abbreviation multiSourceSearch' :=
  (multiSourceSearch encodeURIComponent JSON_parse PERENUAL_API_KEY API_SOURCES server).
#[local] Abbreviation details_url' := (details_url PERENUAL_API_KEY).
#[local] Abbreviation attempt_answer' := (attempt_answer PERENUAL_API_KEY server).
#[local] Abbreviation after_attempt' := (after_attempt PERENUAL_API_KEY server).
#[local] Abbreviation after_reply' :=
  (after_reply encodeURIComponent JSON_parse JSON_stringify setItem_refused).

(** *** One attempt *)

Lemma attempt_body_eq (plantId : value) (retries attempt : Z) (w : World) :
  attempt_body' plantId retries attempt w
  = after_reply' plantId retries attempt (clock w)
      (attempt_answer' plantId w) (after_attempt' plantId w).
Proof.
  unfold attempt_body, after_reply, attempt_answer, after_attempt, issue_time.
  unfold mbind, Async_bind, Date_now, read_lastApiCallTime, write_lastApiCallTime,
    sleep, fetch, mret, Async_ret, details_url.
  cbn beta iota.
  destruct (clock w - lastApiCallTime w <? API_COOLDOWN_MS)%Z eqn:E; cbn.
  - apply Z.ltb_lt in E. unfold API_COOLDOWN_MS in *.
    replace (clock w + Z.max 0 (2000 - (clock w - lastApiCallTime w)))
      with (Z.max (clock w) (lastApiCallTime w + 2000)) by lia.
    destruct (answer _) as [e | status body]; reflexivity.
  - apply Z.ltb_ge in E. unfold API_COOLDOWN_MS in *.
    replace (Z.max (clock w) (lastApiCallTime w + 2000)) with (clock w) by lia.
    destruct (answer _) as [e | status body]; reflexivity.
Qed.

(** What follows the reply touches neither the request log nor the time
    stamp of the rate limiter, and the clock does not go back. *)
Lemma after_reply_net (plantId : value) (retries attempt now : Z) (a : Answer)
    (w : World) :
  let w' := snd (after_reply' plantId retries attempt now a w) in
  requests w' = requests w /\ lastApiCallTime w' = lastApiCallTime w /\
  plantCache w' = plantCache w /\ clock w <= clock w'.
Proof.
  unfold after_reply.
  unfold mbind, Async_bind, mret, Async_ret, throw, lift, try_catch, sleep, setItem.
  destruct a as [e | status body]; cbn; [repeat split; lia |].
  destruct (ok status); cbn;
    [| destruct (status =? 429)%Z; cbn;
       [| destruct (attempt =? retries)%Z; cbn ]; repeat split; lia ].
  destruct (JSON_parse body) as [data |]; cbn; [| repeat split; lia ].
  destruct (get data "common_name"); cbn; [| repeat split; lia ].
  destruct (get data "id") as [id |]; cbn; [| repeat split; lia ].
  destruct (truthy id); cbn; [| repeat split; lia ].
  destruct (formatPlantData _ data) as [formatted |]; cbn; [| repeat split; lia ].
  destruct (setItem_refused _ _ _); cbn; [repeat split; lia |].
  destruct (setItem_refused _ _ _); cbn; repeat split; lia.
Qed.

(** One turn of the retry loop. *)
Lemma attempts_S (plantId : value) (retries attempt : Z) (turns : nat) (w : World) :
  attempts' plantId retries attempt (S turns) w
  = match after_reply' plantId retries attempt (clock w)
            (attempt_answer' plantId w) (after_attempt' plantId w) with
    | (Return (Finished formatted), w1) => (Return formatted, w1)
    | (Return Continue, w1) => attempts' plantId retries (attempt + 1) turns w1
    | (Throw error, w1) =>
        if (attempt =? retries)%Z then (Throw error, w1)
        else attempts' plantId retries (attempt + 1) turns (snd (sleep 500 w1))
    end.
Proof.
  cbn [attempts]. unfold mbind at 1. unfold Async_bind, try_catch.
  rewrite attempt_body_eq.
  destruct (after_reply _ _ _ _ _ _ _ _ _ _) as [[[formatted |] | error] w1];
    try reflexivity.
  destruct (attempt =? retries)%Z; reflexivity.
Qed.

Lemma attempts_S_failing (plantId : value) (retries attempt : Z) (turns : nat)
    (w : World) :
  failing (attempt_answer' plantId w) = true ->
  attempts' plantId retries attempt (S turns) w
  = if (attempt =? retries)%Z
    then (Throw (error_of (attempt_answer' plantId w)), after_attempt' plantId w)
    else attempts' plantId retries (attempt + 1) turns
           (snd (sleep 500 (after_attempt' plantId w))).
Proof.
  intros Hfail. rewrite attempts_S. unfold after_reply.
  destruct (attempt_answer _ _ _ _) as [e | status body]; cbn in Hfail |- *.
  - reflexivity.
  - apply negb_true_iff in Hfail. rewrite Hfail. cbn.
    destruct (status =? 429)%Z; cbn; [reflexivity |].
    destruct (attempt =? retries)%Z; reflexivity.
Qed.

(** The requests of a run of the retry loop. *)
Lemma attempts_trace (plantId : value) (retries : Z) (turns : nat) :
  forall (attempt : Z) (w : World),
    let w' := snd (attempts' plantId retries attempt turns w) in
    exists rs : list Request,
      requests w' = requests w ++ rs /\ (length rs <= turns)%nat /\
      spaced_from (lastApiCallTime w) rs /\
      lastApiCallTime w' = last_issue (lastApiCallTime w) rs /\
      Forall (fun r => url r = details_url' plantId) rs /\
      plantCache w' = plantCache w /\ clock w <= clock w'.
Proof.
  induction turns as [|turns IH]; intros attempt w.
  - exists []. cbn. rewrite app_nil_r. repeat split; [lia | constructor | lia].
  - cbn zeta. rewrite attempts_S.
    pose proof (after_reply_net plantId retries attempt (clock w)
                  (attempt_answer' plantId w) (after_attempt' plantId w)) as Hnet.
    cbn zeta in Hnet.
    pose proof (issue_time_spaced w) as Hspaced.
    pose proof (issue_time_clock w) as Hclock.
    destruct (after_reply _ _ _ _ _ _ _ _ _ _) as [o w1].
    cbn [snd] in Hnet. destruct Hnet as (Hr & Hl & Hp & Hc).
    cbn in Hr, Hl, Hp, Hc.
    assert (exists rs : list Request,
               requests w1 = requests w ++ rs /\ (length rs <= S turns)%nat /\
               spaced_from (lastApiCallTime w) rs /\
               lastApiCallTime w1 = last_issue (lastApiCallTime w) rs /\
               Forall (fun r => url r = details_url' plantId) rs /\
               plantCache w1 = plantCache w /\ clock w <= clock w1) as Hone.
    { eexists [_]. split; [exact Hr |]. cbn.
      repeat split; [lia | lia | exact Hl | | exact Hp | lia].
      constructor; [reflexivity | constructor]. }
    assert (forall w2 : World,
               requests w2 = requests w1 -> lastApiCallTime w2 = lastApiCallTime w1 ->
               plantCache w2 = plantCache w1 -> clock w1 <= clock w2 ->
               let w' := snd (attempts' plantId retries (attempt + 1) turns w2) in
               exists rs : list Request,
                 requests w' = requests w ++ rs /\ (length rs <= S turns)%nat /\
                 spaced_from (lastApiCallTime w) rs /\
                 lastApiCallTime w' = last_issue (lastApiCallTime w) rs /\
                 Forall (fun r => url r = details_url' plantId) rs /\
                 plantCache w' = plantCache w /\ clock w <= clock w') as Hmore.
    { intros w2 Hr2 Hl2 Hp2 Hc2. cbn zeta.
      destruct (IH (attempt + 1) w2) as (rs & Hrs & Hlen & Hsp & Hlast & Hurl & Hpc & Hck).
      exists ({| url := details_url' plantId; issued_at := issue_time w |} :: rs).
      rewrite Hrs, Hr2, Hr, <- app_assoc. cbn.
      rewrite Hl2, Hl in Hsp, Hlast.
      repeat split; [lia | lia | exact Hsp | exact Hlast | | congruence | lia].
      constructor; [reflexivity | exact Hurl]. }
    destruct o as [[formatted |] | error]; cbn [snd].
    + exact Hone.
    + apply Hmore; [reflexivity | reflexivity | reflexivity | lia].
    + destruct (attempt =? retries)%Z; cbn [snd]; [exact Hone |].
      apply Hmore; cbn; [reflexivity | reflexivity | reflexivity | lia].
Qed.

(** Against a backend that fails every time the loop uses all its turns
    and ends with the error of the last one. *)
Lemma attempts_failing (plantId : value) (retries : Z) (turns : nat) :
  (forall n : nat, failing (answer (server n (details_url' plantId))) = true) ->
  forall (attempt : Z) (w : World),
    attempt + Z.of_nat turns = retries + 1 -> (1 <= turns)%nat ->
    exists w' : World,
      attempts' plantId retries attempt turns w
      = (Throw (error_of (answer (server (length (requests w) + turns - 1)
                                    (details_url' plantId)))), w')
      /\ length (requests w') = (length (requests w) + turns)%nat.
Proof.
  intros Hfail. induction turns as [|turns IH]; intros attempt w Hsum Hpos; [lia |].
  rewrite attempts_S_failing by apply Hfail.
  destruct (attempt =? retries)%Z eqn:E.
  - apply Z.eqb_eq in E. assert (turns = 0%nat) as -> by lia.
    eexists. split.
    + unfold attempt_answer.
      replace (length (requests w) + 1 - 1)%nat with (length (requests w)) by lia.
      reflexivity.
    + cbn. rewrite length_app. cbn. lia.
  - apply Z.eqb_neq in E.
    destruct (IH (attempt + 1) (snd (sleep 500 (after_attempt' plantId w))))
      as (w' & Hrun & Hlen); [lia | lia |].
    exists w'. rewrite Hrun. cbn in Hlen |- *. rewrite length_app in Hlen |- *.
    cbn in Hlen |- *. split; [| lia].
    replace (length (requests w) + 1 + turns - 1)%nat
      with (length (requests w) + S turns - 1)%nat by lia.
    reflexivity.
Qed.

(** What an attempt leaves in the storage. *)
Lemma after_reply_storage (plantId : value) (retries attempt now : Z) (a : Answer)
    (w : World) :
  match fst (after_reply' plantId retries attempt now a w) with
  | Return (Finished _) => True
  | _ => localStorage (snd (after_reply' plantId retries attempt now a w))
         = localStorage w
  end.
Proof.
  unfold after_reply.
  unfold mbind, Async_bind, mret, Async_ret, throw, lift, try_catch, sleep, setItem.
  destruct a as [e | status body]; cbn; [reflexivity |].
  destruct (ok status); cbn;
    [| destruct (status =? 429)%Z; cbn;
       [| destruct (attempt =? retries)%Z; cbn ]; reflexivity ].
  destruct (JSON_parse body) as [data |]; cbn; [| reflexivity ].
  destruct (get data "common_name"); cbn; [| reflexivity ].
  destruct (get data "id") as [id |]; cbn; [| reflexivity ].
  destruct (truthy id); cbn; [| reflexivity ].
  destruct (formatPlantData _ data) as [formatted |]; cbn; [| reflexivity ].
  destruct (setItem_refused _ _ _); cbn; [exact I |].
  destruct (setItem_refused _ _ _); cbn; exact I.
Qed.

Lemma attempts_storage (plantId : value) (retries : Z) (turns : nat) :
  forall (attempt : Z) (w : World),
    match fst (attempts' plantId retries attempt turns w) with
    | Return formatted =>
        formatted = VUndefined ->
        localStorage (snd (attempts' plantId retries attempt turns w))
        = localStorage w \/ turns <> 0%nat
    | Throw _ =>
        localStorage (snd (attempts' plantId retries attempt turns w))
        = localStorage w
    end.
Proof.
  induction turns as [|turns IH]; intros attempt w; [cbn; auto |].
  rewrite attempts_S.
  pose proof (after_reply_storage plantId retries attempt (clock w)
                (attempt_answer' plantId w) (after_attempt' plantId w)) as Hstore.
  destruct (after_reply _ _ _ _ _ _ _ _ _ _) as [[[formatted |] | error] w1];
    cbn [fst snd] in Hstore |- *.
  - auto.
  - specialize (IH (attempt + 1) w1).
    destruct (fst (attempts' plantId retries (attempt + 1) turns w1));
      [auto | now rewrite IH, Hstore].
  - destruct (attempt =? retries)%Z; cbn [fst snd]; [exact Hstore |].
    specialize (IH (attempt + 1) (snd (sleep 500 w1))).
    destruct (fst (attempts' plantId retries (attempt + 1) turns (snd (sleep 500 w1))));
      [auto | now rewrite IH; cbn].
Qed.

(** *** The head of [getPlantDetails] *)

Lemma getPlantDetails_cases (plantId : value) (retries : Z) (w : World) :
  getPlantDetails' plantId retries w
  = if cache_fresh (localStorage w !! cacheKey_of plantId)
         (localStorage w !! (cacheKey_of plantId +:+ "_time")) (clock w)
    then (JSON_parse (default "" (localStorage w !! cacheKey_of plantId)), w)
    else if isNonPerenual plantId
    then (if truthy (default VUndefined (plantCache w !! js_toString plantId))
          then Return (default VUndefined (plantCache w !! js_toString plantId))
          else Throw (Error ("Cannot fetch details for non-Perenual plant "
                             +:+ js_toString plantId
                             +:+ ". Please use cached data or loadPlantDetails with source parameter.")),
          w)
    else attempts' plantId retries 1 (Z.to_nat retries) w.
Proof.
  unfold getPlantDetails.
  unfold mbind, Async_bind, getItem, Date_now. cbn beta iota.
  destruct (cache_fresh _ _ _); [reflexivity |].
  destruct (isNonPerenual plantId); [| reflexivity].
  unfold plantCache_get. destruct (truthy _); reflexivity.
Qed.

(** The requests of a call of [getPlantDetails]. *)
Lemma getPlantDetails_trace (plantId : value) (retries : Z) (w : World) :
  let w' := snd (getPlantDetails' plantId retries w) in
  exists rs : list Request,
    requests w' = requests w ++ rs /\ (length rs <= Z.to_nat retries)%nat /\
    spaced_from (lastApiCallTime w) rs /\
    lastApiCallTime w' = last_issue (lastApiCallTime w) rs /\
    Forall (fun r => url r = details_url' plantId) rs /\
    plantCache w' = plantCache w /\ clock w <= clock w'.
Proof.
  cbn zeta. rewrite getPlantDetails_cases.
  assert (exists rs : list Request,
             requests w = requests w ++ rs /\ (length rs <= Z.to_nat retries)%nat /\
             spaced_from (lastApiCallTime w) rs /\
             lastApiCallTime w = last_issue (lastApiCallTime w) rs /\
             Forall (fun r => url r = details_url' plantId) rs /\
             plantCache w = plantCache w /\ clock w <= clock w) as Hnone.
  { exists []. rewrite app_nil_r. cbn. repeat split; [lia | constructor | lia]. }
  destruct (cache_fresh _ _ _); [exact Hnone |].
  destruct (isNonPerenual plantId); [exact Hnone |].
  apply attempts_trace.
Qed.

(** *** The cache test *)

Lemma cache_fresh_spec (store : gmap string string) (key : string) (now : Z) :
  cache_fresh (store !! key) (store !! (key +:+ "_time")) now = true
  <-> exists payload t, cache_entry store key payload t /\ now - t < CACHE_TTL_MS.
Proof.
  unfold cache_fresh, cache_entry. split.
  - intros H. apply andb_true_iff in H as [H Ht]. apply andb_true_iff in H as [Hp Hs].
    destruct (store !! key) as [payload |]; [| discriminate].
    destruct (store !! (key +:+ "_time")) as [stamp |]; [| discriminate].
    cbn in *. destruct (parseInt stamp) as [t |] eqn:E; [| discriminate].
    exists payload, t. apply Z.ltb_lt in Ht. apply negb_true_iff in Hp.
    apply String.eqb_neq in Hp. eauto 10.
  - intros (payload & t & (Hp & Hne & stamp & Hs & Ht) & Hage).
    rewrite Hp, Hs. cbn. rewrite Ht.
    apply String.eqb_neq in Hne. rewrite Hne. cbn.
    assert (stamp <> "") as Hstamp by (intros ->; discriminate).
    apply String.eqb_neq in Hstamp. rewrite Hstamp. cbn. now apply Z.ltb_lt.
Qed.

Lemma cached_read_spec (store : gmap string string) (key payload : string) (now : Z) :
  cached_read store key now = Some payload
  <-> exists t, cache_entry store key payload t /\ now - t < CACHE_TTL_MS.
Proof.
  unfold cached_read. split.
  - intros H. destruct (cache_fresh _ _ _) eqn:E; [| discriminate].
    apply cache_fresh_spec in E as (payload' & t & Hentry & Hage).
    exists t. split; [| exact Hage].
    destruct Hentry as (Hp & Hrest). rewrite H in Hp. injection Hp as <-.
    split; [exact H | exact Hrest].
  - intros (t & Hentry & Hage).
    assert (cache_fresh (store !! key) (store !! (key +:+ "_time")) now = true) as ->
      by (apply cache_fresh_spec; eauto).
    apply Hentry.
Qed.

Lemma cached_read_some_fresh (store : gmap string string) (key payload : string)
    (now : Z) :
  cached_read store key now = Some payload ->
  cache_fresh (store !! key) (store !! (key +:+ "_time")) now = true
  /\ store !! key = Some payload.
Proof.
  unfold cached_read. destruct (cache_fresh _ _ _); [auto | discriminate].
Qed.

Lemma cached_read_none_stale (store : gmap string string) (key : string) (now : Z) :
  cached_read store key now = None ->
  cache_fresh (store !! key) (store !! (key +:+ "_time")) now = false.
Proof.
  unfold cached_read, cache_fresh.
  destruct (store !! key) as [payload |]; [| reflexivity].
  destruct (item_truthy _ && _ && _); [discriminate | reflexivity].
Qed.

Lemma cache_put_entry (store : gmap string string) (key payload : string) (t : Z) :
  payload <> "" -> cache_entry (cache_put key payload t store) key payload t.
Proof.
  intros Hne. unfold cache_entry, cache_put. split; [| split; [exact Hne |]].
  - rewrite lookup_insert_ne by apply time_key_neq. apply lookup_insert_eq.
  - exists (string_of_Z t). split; [apply lookup_insert_eq | apply parseInt_string_of_Z].
Qed.

Lemma cache_put_read (store : gmap string string) (key payload : string) (t now : Z) :
  payload <> "" ->
  cached_read (cache_put key payload t store) key now
  = if (now - t <? CACHE_TTL_MS)%Z then Some payload else None.
Proof.
  intros Hne. destruct (now - t <? CACHE_TTL_MS)%Z eqn:E.
  - apply cached_read_spec. exists t. split; [now apply cache_put_entry |].
    now apply Z.ltb_lt.
  - destruct (cached_read _ _ _) as [payload' |] eqn:R; [| reflexivity].
    apply cached_read_spec in R as (t' & (_ & _ & stamp & Hs & Ht') & Hage).
    unfold cache_put in Hs. rewrite lookup_insert_eq in Hs. injection Hs as <-.
    rewrite parseInt_string_of_Z in Ht'. injection Ht' as <-.
    apply Z.ltb_ge in E. lia.
Qed.

(** *** Claims on [getPlantDetails] *)

(** C7: the read of the details cache yields the payload exactly when an
    entry exists whose age is strictly below the 24-hour TTL; on such a
    hit [getPlantDetails] returns the parsed payload and leaves the world
    as it was (no request, no wait, no write); without one it goes on to
    the in-memory cache or the network; an entry written at [t] is read at
    [t + TTL - 1] and is not at [t + TTL] and [t + TTL + 1]. *)
Theorem cache_hit_iff_fresh (plantId : value) (retries : Z) (w : World) :
  (forall (store : gmap string string) (key payload : string) (now : Z),
      cached_read store key now = Some payload
      <-> exists t, cache_entry store key payload t /\ now - t < CACHE_TTL_MS)
  /\ (forall payload : string,
         cached_read (localStorage w) (cacheKey_of plantId) (clock w) = Some payload ->
         getPlantDetails' plantId retries w = (JSON_parse payload, w))
  /\ (cached_read (localStorage w) (cacheKey_of plantId) (clock w) = None ->
      getPlantDetails' plantId retries w
      = if isNonPerenual plantId
        then (if truthy (default VUndefined (plantCache w !! js_toString plantId))
              then Return (default VUndefined (plantCache w !! js_toString plantId))
              else Throw (Error ("Cannot fetch details for non-Perenual plant "
                                 +:+ js_toString plantId
                                 +:+ ". Please use cached data or loadPlantDetails with source parameter.")),
              w)
        else attempts' plantId retries 1 (Z.to_nat retries) w)
  /\ (forall (store : gmap string string) (key payload : string) (t : Z),
         payload <> "" ->
         cached_read (cache_put key payload t store) key (t + CACHE_TTL_MS - 1)
         = Some payload
         /\ cached_read (cache_put key payload t store) key (t + CACHE_TTL_MS) = None
         /\ cached_read (cache_put key payload t store) key (t + CACHE_TTL_MS + 1)
            = None).
Proof.
  split; [intros; apply cached_read_spec |].
  split; [| split].
  - intros payload H. apply cached_read_some_fresh in H as [Hf Hp].
    rewrite getPlantDetails_cases, Hf, Hp. reflexivity.
  - intros H. apply cached_read_none_stale in H.
    rewrite getPlantDetails_cases, H. reflexivity.
  - intros store key payload t Hne. rewrite !cache_put_read by exact Hne.
    replace (t + CACHE_TTL_MS - 1 - t <? CACHE_TTL_MS)%Z with true
      by (symmetry; apply Z.ltb_lt; lia).
    replace (t + CACHE_TTL_MS - t <? CACHE_TTL_MS)%Z with false
      by (symmetry; apply Z.ltb_ge; lia).
    replace (t + CACHE_TTL_MS + 1 - t <? CACHE_TTL_MS)%Z with false
      by (symmetry; apply Z.ltb_ge; lia).
    auto.
Qed.

(** C10: for an id with one of the prefixes [inat_], [toxic_], [gbif_],
    [trefle_] and no fresh [localStorage] entry, [getPlantDetails] makes no
    request and changes nothing: it returns the record of [plantCache]
    under that id when there is a truthy one, and throws otherwise. *)
Theorem non_perenual_never_fetched (plantId : value) (retries : Z) (w : World) :
  isNonPerenual plantId = true ->
  cache_fresh (localStorage w !! cacheKey_of plantId)
    (localStorage w !! (cacheKey_of plantId +:+ "_time")) (clock w) = false ->
  getPlantDetails' plantId retries w
  = (if truthy (default VUndefined (plantCache w !! js_toString plantId))
     then Return (default VUndefined (plantCache w !! js_toString plantId))
     else Throw (Error ("Cannot fetch details for non-Perenual plant "
                        +:+ js_toString plantId
                        +:+ ". Please use cached data or loadPlantDetails with source parameter.")),
     w)
  /\ new_requests w (snd (getPlantDetails' plantId retries w)) = [].
Proof.
  intros Hprefix Hstale.
  assert (getPlantDetails' plantId retries w
          = (if truthy (default VUndefined (plantCache w !! js_toString plantId))
             then Return (default VUndefined (plantCache w !! js_toString plantId))
             else Throw (Error ("Cannot fetch details for non-Perenual plant "
                                +:+ js_toString plantId
                                +:+ ". Please use cached data or loadPlantDetails with source parameter.")),
             w)) as Hrun
    by (rewrite getPlantDetails_cases, Hstale, Hprefix; reflexivity).
  split; [exact Hrun |]. rewrite Hrun. now apply new_requests_same.
Qed.

Lemma getPlantDetails_failing (plantId : value) (retries : Z) (w : World) :
  1 <= retries ->
  cache_fresh (localStorage w !! cacheKey_of plantId)
    (localStorage w !! (cacheKey_of plantId +:+ "_time")) (clock w) = false ->
  isNonPerenual plantId = false ->
  (forall n : nat, failing (answer (server n (details_url' plantId))) = true) ->
  fst (getPlantDetails' plantId retries w)
  = Throw (error_of (answer (server (length (requests w) + Z.to_nat retries - 1)
                               (details_url' plantId))))
  /\ length (new_requests w (snd (getPlantDetails' plantId retries w)))
     = Z.to_nat retries
  /\ Forall (fun r => url r = details_url' plantId)
       (new_requests w (snd (getPlantDetails' plantId retries w))).
Proof.
  intros Hr Hstale Hprefix Hfail.
  destruct (getPlantDetails_trace plantId retries w)
    as (rs & Hrs & _ & _ & _ & Hurl & _).
  rewrite (new_requests_app _ _ _ Hrs).
  apply (f_equal (@length _)) in Hrs. rewrite length_app in Hrs.
  revert Hrs. rewrite getPlantDetails_cases, Hstale, Hprefix.
  destruct (attempts_failing plantId retries (Z.to_nat retries) Hfail 1 w)
    as (w' & Hrun & Hlen); [lia | lia |].
  rewrite Hrun. cbn [fst snd]. intros Hrs. split; [reflexivity |].
  split; [lia | exact Hurl].
Qed.

(** C8: with [retries >= 1], a cache miss and a Perenual id, against a
    backend that fails every attempt (unreachable or a status outside 2xx)
    [getPlantDetails] issues exactly [retries] requests, all for the details
    of that id, and then throws the error of the last attempt. *)
Theorem retries_bounded_last_error (plantId : value) (retries : Z) (w : World) :
  1 <= retries ->
  cache_fresh (localStorage w !! cacheKey_of plantId)
    (localStorage w !! (cacheKey_of plantId +:+ "_time")) (clock w) = false ->
  isNonPerenual plantId = false ->
  (forall n : nat, failing (answer (server n (details_url' plantId))) = true) ->
  fst (getPlantDetails' plantId retries w)
  = Throw (error_of (answer (server (length (requests w) + Z.to_nat retries - 1)
                               (details_url' plantId))))
  /\ length (new_requests w (snd (getPlantDetails' plantId retries w)))
     = Z.to_nat retries
  /\ Forall (fun r => url r = details_url' plantId)
       (new_requests w (snd (getPlantDetails' plantId retries w))).
Proof. apply getPlantDetails_failing. Qed.

(** C2: the code differs from the claim.  With a cache miss and a Perenual
    id, when every attempt is answered with HTTP 429 [getPlantDetails]
    makes [retries] requests before the rate-limit error reaches the
    caller: the error thrown in the [try] block is caught by the retry
    handler, which gives up only on the last attempt. *)
Theorem rate_limit_is_retried (plantId : value) (retries : Z) (w : World) :
  1 <= retries ->
  cache_fresh (localStorage w !! cacheKey_of plantId)
    (localStorage w !! (cacheKey_of plantId +:+ "_time")) (clock w) = false ->
  isNonPerenual plantId = false ->
  (forall n : nat, exists body : string,
      answer (server n (details_url' plantId)) = Response 429 body) ->
  fst (getPlantDetails' plantId retries w) = Throw (Error RATE_LIMIT_MESSAGE)
  /\ length (new_requests w (snd (getPlantDetails' plantId retries w)))
     = Z.to_nat retries.
Proof.
  intros Hr Hstale Hprefix Hlimited.
  destruct (getPlantDetails_failing plantId retries w Hr Hstale Hprefix)
    as (Hthrow & Hlen & _).
  { intros n. destruct (Hlimited n) as [body ->]. reflexivity. }
  split; [| exact Hlen]. rewrite Hthrow.
  destruct (Hlimited (length (requests w) + Z.to_nat retries - 1)%nat) as [body ->].
  reflexivity.
Qed.

(** *** [getPlantList] *)

Lemma getPlantList_run (page : Z) (filters : Filters) (w : World) :
  let address := list_url encodeURIComponent PERENUAL_API_KEY page filters in
  let reply := server (length (requests w)) address in
  getPlantList' page filters w
  = (match answer reply with
     | Unreachable e => Throw e
     | Response status body =>
         if ok status then JSON_parse body
         else if (status =? 429)%Z then Throw (Error RATE_LIMIT_MESSAGE)
         else Throw (Error ("Plant list request failed: " +:+ string_of_Z status))
     end,
     {| localStorage := localStorage w; plantCache := plantCache w;
        lastApiCallTime := lastApiCallTime w;
        clock := clock w + Z.of_N (latency reply);
        requests := requests w ++ [{| url := address; issued_at := clock w |}] |}).
Proof.
  cbn zeta. unfold getPlantList, list_url.
  unfold mbind, Async_bind, fetch, throw, lift.
  destruct (answer _) as [e | status body]; [reflexivity |].
  destruct (ok status); cbn; [reflexivity |].
  destruct (status =? 429)%Z; reflexivity.
Qed.

Lemma list_url_source (page : Z) (filters : Filters) :
  source_of (list_url encodeURIComponent PERENUAL_API_KEY page filters) = Some Perenual.
Proof. reflexivity. Qed.

Lemma details_url_source (plantId : value) :
  source_of (details_url' plantId) = Some Perenual.
Proof. reflexivity. Qed.

(** C3, as the code has it: there is one time stamp, [lastApiCallTime],
    not one per source, and only [getPlantDetails] consults it.  Every
    request of [getPlantDetails] is issued at least the cooldown after the
    time stamp it finds and after its own previous request, and the time
    stamp is left at its last request; [getPlantList], which calls the same
    source, issues its request at once and leaves the time stamp alone. *)
Theorem cooldown_single_timestamp (plantId : value) (retries : Z) (page : Z)
    (filters : Filters) (w : World) :
  (let w' := snd (getPlantDetails' plantId retries w) in
   spaced_from (lastApiCallTime w) (new_requests w w')
   /\ lastApiCallTime w' = last_issue (lastApiCallTime w) (new_requests w w')
   /\ Forall (fun r => source_of (url r) = Some Perenual) (new_requests w w'))
  /\ (let w' := snd (getPlantList' page filters w) in
      new_requests w w'
      = [{| url := list_url encodeURIComponent PERENUAL_API_KEY page filters;
            issued_at := clock w |}]
      /\ source_of (list_url encodeURIComponent PERENUAL_API_KEY page filters)
         = Some Perenual
      /\ lastApiCallTime w' = lastApiCallTime w).
Proof.
  split.
  - cbn zeta.
    destruct (getPlantDetails_trace plantId retries w)
      as (rs & Hrs & _ & Hspaced & Hlast & Hurl & _).
    rewrite (new_requests_app _ _ _ Hrs).
    split; [exact Hspaced | split; [exact Hlast |]].
    eapply Forall_impl; [exact Hurl |].
    intros r ->. apply details_url_source.
  - cbn zeta. pose proof (getPlantList_run page filters w) as Hrun.
    cbn zeta in Hrun. rewrite Hrun. cbn [snd].
    split; [| split; [apply list_url_source | reflexivity]].
    now apply new_requests_app.
Qed.

(** *** [getRandomPlant] *)

Lemma any_cached_eq (ids : list Z) (w : World) :
  any_cached JSON_parse ids w
  = (match first_cached JSON_parse (localStorage w) ids with
     | Some (_, plantData) => Return plantData
     | None => Throw (Error NO_CACHED_PLANTS_MESSAGE)
     end, w).
Proof.
  induction ids as [|id rest IH]; [reflexivity |].
  cbn [any_cached first_cached]. unfold mbind at 1. unfold Async_bind, getItem.
  destruct (localStorage w !! cacheKey_of (VNum id)) as [payload |]; cbn;
    [| exact IH].
  destruct (String.eqb payload ""); cbn; [exact IH |].
  unfold try_catch, lift. destruct (JSON_parse payload); [reflexivity | exact IH].
Qed.

Lemma getPlantDetails_rate_limited (plantId : value) (body : string) (w : World) :
  cache_fresh (localStorage w !! cacheKey_of plantId)
    (localStorage w !! (cacheKey_of plantId +:+ "_time")) (clock w) = false ->
  isNonPerenual plantId = false ->
  attempt_answer' plantId w = Response 429 body ->
  getPlantDetails' plantId 1 w
  = (Throw (Error RATE_LIMIT_MESSAGE), after_attempt' plantId w).
Proof.
  intros Hstale Hprefix Hanswer.
  rewrite getPlantDetails_cases, Hstale, Hprefix.
  change (Z.to_nat 1) with 1%nat.
  rewrite attempts_S_failing by (rewrite Hanswer; reflexivity).
  rewrite Hanswer. reflexivity.
Qed.

(** C1, as the code has it.  [getPlantDetails] has no read that ignores the
    TTL: for every Perenual id and every [retries >= 1], when the call is
    not a cache hit and every attempt is answered with HTTP 429, it throws
    the rate-limit error, whatever stale entry the storage holds, and
    leaves the storage as it was.  The fallback is in [getRandomPlant]:
    when the request for the id it has drawn is answered with HTTP 429,
    [getRandomPlant] returns the parsed payload of the first curated id, in
    the order of the list, that has a non-empty entry [JSON.parse] accepts,
    whatever its age and whether or not it is the id drawn, and throws the
    no-cached-plants error when there is none. *)
Theorem rate_limit_fallback_first_cached (random : nat -> nat) (w : World) :
  (forall (plantId : value) (retries : Z),
      1 <= retries ->
      cache_fresh (localStorage w !! cacheKey_of plantId)
        (localStorage w !! (cacheKey_of plantId +:+ "_time")) (clock w) = false ->
      isNonPerenual plantId = false ->
      (forall n : nat, exists body : string,
          answer (server n (details_url' plantId)) = Response 429 body) ->
      fst (getPlantDetails' plantId retries w) = Throw (Error RATE_LIMIT_MESSAGE)
      /\ localStorage (snd (getPlantDetails' plantId retries w)) = localStorage w)
  /\ (forall body : string,
         cache_fresh (localStorage w !! cacheKey_of (VNum (drawn_id random w)))
           (localStorage w !! (cacheKey_of (VNum (drawn_id random w)) +:+ "_time"))
           (clock w) = false ->
         attempt_answer' (VNum (drawn_id random w)) w = Response 429 body ->
         getRandomPlant' random w
         = (match first_cached JSON_parse (localStorage w) CURATED_PLANT_IDS with
            | Some (_, plantData) => Return plantData
            | None => Throw (Error NO_CACHED_PLANTS_MESSAGE)
            end,
            after_attempt' (VNum (drawn_id random w)) w)).
Proof.
  split.
  - intros plantId retries Hr Hstale Hprefix Hlimited.
    assert (fst (getPlantDetails' plantId retries w)
            = Throw (Error RATE_LIMIT_MESSAGE)) as Hthrow.
    { destruct (getPlantDetails_failing plantId retries w Hr Hstale Hprefix)
        as (Hthrow & _).
      { intros n. destruct (Hlimited n) as [body ->]. reflexivity. }
      rewrite Hthrow.
      destruct (Hlimited (length (requests w) + Z.to_nat retries - 1)%nat)
        as [body ->].
      reflexivity. }
    split; [exact Hthrow |].
    revert Hthrow. rewrite getPlantDetails_cases, Hstale, Hprefix. intros Hthrow.
    pose proof (attempts_storage plantId retries (Z.to_nat retries) 1 w) as Hstore.
    rewrite Hthrow in Hstore. exact Hstore.
  - intros body Hstale Hanswer.
    pose proof (getPlantDetails_rate_limited (VNum (drawn_id random w)) body w
                  Hstale eq_refl Hanswer) as Hrun.
    unfold getRandomPlant. fold (drawn_id random w).
    unfold try_catch. unfold mbind at 1. unfold Async_bind.
    rewrite Hrun.
    change (includes (message (Error RATE_LIMIT_MESSAGE)) "rate limit") with true.
    cbn iota. rewrite any_cached_eq. reflexivity.
Qed.

(** *** Normalizers *)

Lemma getWikipediaUrl_string (name : string) :
  getWikipediaUrl encodeURIComponent (VStr name)
  = Return (if String.eqb name "" then VNull
            else VStr ("https://en.wikipedia.org/wiki/"
                       +:+ encodeURIComponent (replace_spaces name))).
Proof. unfold getWikipediaUrl. cbn. destruct (String.eqb name ""); reflexivity. Qed.

Lemma wikipedia_url_truthy (name : string) :
  truthy (VStr ("https://en.wikipedia.org/wiki/" +:+ name)) = true.
Proof. reflexivity. Qed.


(** *** The search *)

Lemma searchINaturalist_run (query : string) (page : Z) (taxonId : option Z)
    (perPage : Z) (w : World) :
  let address := taxa_url encodeURIComponent query page taxonId perPage in
  searchINaturalist' query page taxonId perPage w
  = if inaturalist_enabled API_SOURCES
    then (Return (taxa_of JSON_parse (answer (server (length (requests w)) address))),
          fetched server address w)
    else (Return no_taxa, w).
Proof.
  cbn zeta. unfold searchINaturalist, taxa_url, taxa_of, fetched.
  destruct (inaturalist_enabled API_SOURCES); [| reflexivity]. cbn [negb].
  unfold try_catch, mbind, Async_bind, fetch, throw, lift, mret, Async_ret.
  destruct (answer _) as [e | status body]; [reflexivity |].
  destruct (ok status); cbn; [| reflexivity].
  destruct (JSON_parse body) as [data | e]; cbn; [| reflexivity].
  destruct (get data "results"); reflexivity.
Qed.

Lemma getToxicShrooms_run (type : string) (w : World) :
  getToxicShrooms' type w
  = if toxicshrooms_enabled API_SOURCES
    then (Return (shrooms_of JSON_parse
                    (answer (server (length (requests w)) (shrooms_url type)))),
          fetched server (shrooms_url type) w)
    else (Return (VArr []), w).
Proof.
  unfold getToxicShrooms, shrooms_url, shrooms_of, fetched.
  destruct (toxicshrooms_enabled API_SOURCES); [| reflexivity]. cbn [negb].
  unfold try_catch, mbind, Async_bind, fetch, throw, lift, mret, Async_ret.
  destruct (answer _) as [e | status body]; [reflexivity |].
  destruct (ok status); cbn; [| reflexivity].
  destruct (JSON_parse body); reflexivity.
Qed.

Lemma perenual_branch_run (query : string) (options : Options) (w : World) :
  let address := source_url encodeURIComponent PERENUAL_API_KEY query options Perenual in
  perenual_branch encodeURIComponent JSON_parse PERENUAL_API_KEY API_SOURCES server
    query options w
  = if selected API_SOURCES options Perenual
    then (Return (perenual_fields JSON_parse
                    (answer (server (length (requests w)) address))),
          fetched server address w)
    else (Return None, w).
Proof.
  cbn zeta. unfold perenual_branch, selected, source_url.
  destruct (includePerenual options && perenual_enabled API_SOURCES); [| reflexivity].
  unfold try_catch. unfold mbind at 1. unfold Async_bind.
  pose proof (getPlantList_run 1 (search_only query) w) as Hrun. cbn zeta in Hrun.
  rewrite Hrun. unfold perenual_fields, fetched.
  destruct (answer _) as [e | status body]; [reflexivity |].
  destruct (ok status); cbn.
  - destruct (JSON_parse body) as [data | e]; cbn; [| reflexivity].
    unfold mbind, Async_bind, lift.
    destruct (get data "data"); reflexivity.
  - destruct (status =? 429)%Z; reflexivity.
Qed.

Lemma inaturalist_branch_run (query : string) (options : Options) (w : World) :
  let address :=
    source_url encodeURIComponent PERENUAL_API_KEY query options INaturalist in
  inaturalist_branch encodeURIComponent JSON_parse API_SOURCES server query options w
  = if selected API_SOURCES options INaturalist
    then (Return (inaturalist_field encodeURIComponent
                    (taxa_of JSON_parse
                       (answer (server (length (requests w)) address)))),
          fetched server address w)
    else (Return None, w).
Proof.
  cbn zeta. unfold inaturalist_branch, selected, source_url.
  destruct (includeINaturalist options && inaturalist_enabled API_SOURCES) eqn:E;
    [| reflexivity].
  apply andb_true_iff in E as [_ E].
  unfold try_catch. unfold mbind at 1. unfold Async_bind.
  pose proof (searchINaturalist_run query 1
                (if includeFungi options then Some 47170 else None) 30 w) as Hrun.
  cbn zeta in Hrun. rewrite Hrun, E. unfold inaturalist_field.
  unfold mbind, Async_bind, lift, mret, Async_ret.
  destruct (get (taxa_of _ _) "results") as [results | e]; cbn; [| reflexivity].
  destruct (nullish results); cbn; [reflexivity |].
  destruct (call_map results _); reflexivity.
Qed.

Lemma toxicshrooms_branch_run (query : string) (options : Options) (w : World) :
  let address :=
    source_url encodeURIComponent PERENUAL_API_KEY query options ToxicShrooms in
  toxicshrooms_branch encodeURIComponent JSON_parse API_SOURCES server query options w
  = if selected API_SOURCES options ToxicShrooms
    then (Return (toxicshrooms_field encodeURIComponent query
                    (shrooms_of JSON_parse
                       (answer (server (length (requests w)) address)))),
          fetched server address w)
    else (Return None, w).
Proof.
  cbn zeta. unfold toxicshrooms_branch, selected, source_url.
  destruct (includeFungi options && toxicshrooms_enabled API_SOURCES) eqn:E;
    [| reflexivity].
  apply andb_true_iff in E as [_ E].
  unfold try_catch. unfold mbind at 1. unfold Async_bind.
  rewrite getToxicShrooms_run, E. unfold toxicshrooms_field.
  unfold mbind, Async_bind, lift, mret, Async_ret.
  destruct (String.eqb query ""); cbn.
  - destruct (call_map _ _); reflexivity.
  - destruct (call_filter _ _) as [filtered | e]; cbn; [| reflexivity].
    destruct (call_map _ _); reflexivity.
Qed.

Lemma multiSourceSearch_run (query : string) (options : Options) (w : World) :
  let reply_to s :=
    answer (server (request_index API_SOURCES options w s)
              (source_url encodeURIComponent PERENUAL_API_KEY query options s)) in
  let result s :=
    if selected API_SOURCES options s
    then source_result encodeURIComponent JSON_parse query s (reply_to s)
    else VArr [] in
  exists w' : World,
    multiSourceSearch' query options w
    = (Return {| perenual := result Perenual;
                 inaturalist := result INaturalist;
                 toxicshrooms := result ToxicShrooms;
                 total := if selected API_SOURCES options Perenual
                          then default (VNum 0)
                                 (snd <$> perenual_fields JSON_parse (reply_to Perenual))
                          else VNum 0 |}, w')
    /\ requests w'
       = requests w ++ search_requests encodeURIComponent PERENUAL_API_KEY
                         API_SOURCES query options (clock w)
    /\ localStorage w' = localStorage w /\ plantCache w' = plantCache w
    /\ lastApiCallTime w' = lastApiCallTime w /\ clock w <= clock w'.
Proof.
  cbn zeta. unfold multiSourceSearch, search_requests, request_index.
  unfold mbind at 1. unfold Async_bind, both.
  rewrite perenual_branch_run.
  destruct (selected API_SOURCES options Perenual) eqn:EP; cbn beta iota zeta;
    rewrite inaturalist_branch_run;
    destruct (selected API_SOURCES options INaturalist) eqn:EI; cbn beta iota zeta;
    rewrite toxicshrooms_branch_run;
    destruct (selected API_SOURCES options ToxicShrooms) eqn:ET; cbn beta iota zeta.
  all: cbn [fetched requests clock localStorage plantCache lastApiCallTime
              flat_map app one_if source_result].
  all: rewrite ?length_app, ?EP, ?EI, ?ET; cbn [length one_if].
  all: rewrite ?Nat.add_0_r, <- ?app_assoc; cbn [app].
  all: eexists; split; [reflexivity |]; cbn.
  all: rewrite ?app_nil_r; repeat split; try reflexivity; lia.
Qed.

Lemma source_result_failing (query : string) (s : Source) (a : Answer) :
  failing a = true ->
  source_result encodeURIComponent JSON_parse query s a = VArr [].
Proof.
  intros Hfail. destruct a as [e | status body]; cbn in Hfail.
  - destruct s; cbn; try reflexivity.
    unfold toxicshrooms_field. destruct (String.eqb query ""); reflexivity.
  - apply negb_true_iff in Hfail.
    destruct s; cbn; rewrite Hfail; cbn; try reflexivity.
    unfold toxicshrooms_field. destruct (String.eqb query ""); reflexivity.
Qed.

Lemma search_requests_calls (query : string) (options : Options) (now : Z)
    (s : Source) :
  calls_to s (search_requests encodeURIComponent PERENUAL_API_KEY API_SOURCES
                query options now)
  = one_if (selected API_SOURCES options s).
Proof.
  unfold search_requests. cbn [flat_map].
  destruct (selected API_SOURCES options Perenual) eqn:EP;
    destruct (selected API_SOURCES options INaturalist) eqn:EI;
    destruct (selected API_SOURCES options ToxicShrooms) eqn:ET;
    destruct s; rewrite ?EP, ?EI, ?ET; reflexivity.
Qed.

Lemma enabled_selected (options : Options) (s : Source) :
  enabled API_SOURCES s = false -> selected API_SOURCES options s = false.
Proof. destruct s; cbn; intros ->; apply andb_false_r. Qed.

Lemma mapM_outcome_Forall2 {A B : Type} (f : A -> outcome B) (l : list A)
    (rs : list B) :
  Forall2 (fun x y => f x = Return y) l rs -> mapM_outcome f l = Return rs.
Proof.
  induction 1 as [|x y l rs Hx _ IH]; cbn; [reflexivity |].
  now rewrite Hx, IH.
Qed.

Lemma filterM_Forall2 (f : value -> outcome bool) (l : list value)
    (keeps : list bool) :
  Forall2 (fun x keep => f x = Return keep) l keeps ->
  filterM f l = Return (kept_records l keeps).
Proof.
  induction 1 as [|x keep l keeps Hx _ IH]; cbn; [reflexivity |].
  rewrite Hx, IH. cbn. unfold kept_records. cbn. now destruct keep.
Qed.

Lemma kept_records_all (l : list value) (keeps : list bool) :
  Forall2 (fun _ keep => keep = true) l keeps -> kept_records l keeps = l.
Proof.
  induction 1 as [|x keep l keeps Hx _ IH]; [reflexivity |].
  subst keep. unfold kept_records in *. cbn. now rewrite IH.
Qed.

Lemma shroom_matches_names (query name commonname : string)
    (fields : list (string * value)) :
  assoc "name" fields = VStr name ->
  assoc "commonname" fields = VStr commonname ->
  shroom_matches query (VObj fields)
  = Return ((negb (String.eqb name "")
             && includes (toLowerCase name) (toLowerCase query))
            || (negb (String.eqb commonname "")
                && includes (toLowerCase commonname) (toLowerCase query))).
Proof.
  intros Hname Hcommon. unfold shroom_matches, name_matches.
  cbn [get get_opt mbind outcome_bind]. rewrite Hname, Hcommon. cbn.
  destruct (String.eqb name ""); cbn.
  - destruct (String.eqb commonname ""); reflexivity.
  - destruct (includes (toLowerCase name) (toLowerCase query)); cbn;
      [reflexivity |].
    destruct (String.eqb commonname ""); reflexivity.
Qed.


(** C9, as the code has it: [multiSourceSearch] calls a source when the
    source is enabled in the configuration and switched on in the options
    (Perenual and iNaturalist by default, Toxic Shrooms only with
    [includeFungi]).  Such a source gets exactly one request, any other
    none and the empty list; a disabled source is never selected; and
    [searchINaturalist] and [getToxicShrooms], called directly while their
    source is disabled, return their empty result and leave the world as
    it was. *)
Theorem search_calls_selected_sources (query : string) (options : Options)
    (w : World) (s : Source) (page : Z) (taxonId : option Z) (perPage : Z)
    (type : string) :
  calls_to s (new_requests w (snd (multiSourceSearch' query options w)))
  = one_if (selected API_SOURCES options s)
  /\ (enabled API_SOURCES s = false -> selected API_SOURCES options s = false)
  /\ (selected API_SOURCES options s = false ->
      exists results : SearchResults,
        fst (multiSourceSearch' query options w) = Return results
        /\ result_of s results = VArr [])
  /\ (inaturalist_enabled API_SOURCES = false ->
      searchINaturalist' query page taxonId perPage w = (Return no_taxa, w))
  /\ (toxicshrooms_enabled API_SOURCES = false ->
      getToxicShrooms' type w = (Return (VArr []), w)).
Proof.
  destruct (multiSourceSearch_run query options w) as (w' & Hrun & Hreq & _).
  cbn zeta in Hrun. rewrite Hrun. cbn [fst snd].
  split; [| split; [| split; [| split]]].
  - rewrite (new_requests_app _ _ _ Hreq). apply search_requests_calls.
  - apply enabled_selected.
  - intros Hoff. eexists. split; [reflexivity |].
    destruct s; cbn [result_of perenual inaturalist toxicshrooms];
      rewrite Hoff; reflexivity.
  - intros Hoff. pose proof (searchINaturalist_run query page taxonId perPage w) as H.
    cbn zeta in H. now rewrite Hoff in H.
  - intros Hoff. now rewrite getToxicShrooms_run, Hoff.
Qed.

(** *** Further properties of [getPlantDetails] *)

Lemma details_requests_bounded_aux (plantId : value) (retries : Z) (w : World) :
  (length (new_requests w (snd (getPlantDetails' plantId retries w)))
   <= Z.to_nat retries)%nat
  /\ Forall (fun r => url r = details_url' plantId)
       (new_requests w (snd (getPlantDetails' plantId retries w))).
Proof.
  destruct (getPlantDetails_trace plantId retries w)
    as (rs & Hrs & Hlen & _ & _ & Hurl & _).
  rewrite (new_requests_app _ _ _ Hrs). auto.
Qed.

(** X1: whatever the backend answers, one call of [getPlantDetails] makes
    at most [retries] requests (none when [retries] is not positive), all
    of them for the details of the id asked for; it never changes
    [plantCache] and the clock never goes back. *)
Theorem details_requests_bounded (plantId : value) (retries : Z) (w : World) :
  let w' := snd (getPlantDetails' plantId retries w) in
  (length (new_requests w w') <= Z.to_nat retries)%nat
  /\ Forall (fun r => url r = details_url' plantId) (new_requests w w')
  /\ plantCache w' = plantCache w
  /\ clock w <= clock w'.
Proof.
  cbn zeta.
  destruct (getPlantDetails_trace plantId retries w)
    as (rs & Hrs & Hlen & _ & _ & Hurl & Hcache & Hclock).
  rewrite (new_requests_app _ _ _ Hrs). auto.
Qed.

(** X2: with [retries] zero or negative, a cache miss and a Perenual id,
    [getPlantDetails] resolves to [undefined] without any request: the
    loop body never runs and nothing is thrown. *)
Theorem zero_retries_undefined (plantId : value) (retries : Z) (w : World) :
  retries <= 0 ->
  cache_fresh (localStorage w !! cacheKey_of plantId)
    (localStorage w !! (cacheKey_of plantId +:+ "_time")) (clock w) = false ->
  isNonPerenual plantId = false ->
  getPlantDetails' plantId retries w = (Return VUndefined, w).
Proof.
  intros Hr Hstale Hprefix. rewrite getPlantDetails_cases, Hstale, Hprefix.
  rewrite Z2Nat.nonpos by exact Hr. reflexivity.
Qed.

(** X3: a call of [getPlantDetails] that throws has written nothing to
    [localStorage]: the cache is filled only by a successful fetch. *)
Theorem failed_call_writes_nothing (plantId : value) (retries : Z) (w : World)
    (error : JsError) :
  fst (getPlantDetails' plantId retries w) = Throw error ->
  localStorage (snd (getPlantDetails' plantId retries w)) = localStorage w.
Proof.
  rewrite getPlantDetails_cases.
  destruct (cache_fresh _ _ _); [reflexivity |].
  destruct (isNonPerenual plantId); [reflexivity |].
  intros Hthrow.
  pose proof (attempts_storage plantId retries (Z.to_nat retries) 1 w) as Hstore.
  rewrite Hthrow in Hstore. exact Hstore.
Qed.

Lemma get_returns (v : value) (k k' : string) (x : value) :
  get v k = Return x -> get v k' = Return (get_opt v k').
Proof.
  intros H. apply get_get_opt. destruct v; cbn in H |- *; (reflexivity || discriminate).
Qed.

(** X4: write, then read.  When the first attempt succeeds (a 2xx reply
    whose body parses to a record with a truthy id that [formatPlantData]
    accepts) and the storage takes the two writes, [getPlantDetails]
    returns the formatted record after exactly one request, and any later
    call for the same id made less than 24 hours after the start of that
    attempt, on the storage it left, returns
    [JSON.parse(JSON.stringify(formatted))] without any request. *)
Theorem fetched_details_are_cached (plantId : value) (retries : Z) (w : World)
    (status : Z) (body : string) (data id formatted : value) :
  1 <= retries ->
  cache_fresh (localStorage w !! cacheKey_of plantId)
    (localStorage w !! (cacheKey_of plantId +:+ "_time")) (clock w) = false ->
  isNonPerenual plantId = false ->
  attempt_answer' plantId w = Response status body ->
  ok status = true ->
  JSON_parse body = Return data ->
  get data "id" = Return id -> truthy id = true ->
  formatPlantData encodeURIComponent data = Return formatted ->
  (forall store k v, setItem_refused store k v = false) ->
  JSON_stringify formatted <> "" ->
  exists w1 : World,
    getPlantDetails' plantId retries w = (Return formatted, w1)
    /\ length (new_requests w w1) = 1%nat
    /\ localStorage w1
       = cache_put (cacheKey_of plantId) (JSON_stringify formatted) (clock w)
           (localStorage w)
    /\ forall (w2 : World) (again : Z),
         localStorage w2 = localStorage w1 ->
         clock w2 - clock w < CACHE_TTL_MS ->
         getPlantDetails' plantId again w2
         = (JSON_parse (JSON_stringify formatted), w2).
Proof.
  intros Hr Hstale Hprefix Hanswer Hok Hparse Hid Htruthy Hformat Hroom Hpayload.
  rewrite getPlantDetails_cases, Hstale, Hprefix.
  destruct (Z.to_nat retries) as [|turns] eqn:E; [lia |].
  rewrite attempts_S, Hanswer. unfold after_reply. rewrite Hok. cbn [negb].
  unfold mbind, Async_bind, lift, try_catch, setItem, mret, Async_ret.
  rewrite Hparse, (get_returns _ _ "common_name" _ Hid), Hid, Htruthy. cbn [negb].
  rewrite Hformat, !Hroom. cbn.
  eexists. split; [reflexivity |]. split; [| split].
  - unfold new_requests. cbn. rewrite drop_app_length. reflexivity.
  - reflexivity.
  - intros w2 again Hstore Hage. cbn in Hstore.
    fold (cache_put (cacheKey_of plantId) (JSON_stringify formatted) (clock w)
            (localStorage w)) in Hstore.
    assert (cached_read (localStorage w2) (cacheKey_of plantId) (clock w2)
            = Some (JSON_stringify formatted)) as Hread.
    { rewrite Hstore, cache_put_read by exact Hpayload.
      apply Z.ltb_lt in Hage. now rewrite Hage. }
    apply cached_read_some_fresh in Hread as [Hfresh Hentry].
    rewrite getPlantDetails_cases, Hfresh, Hentry. reflexivity.
Qed.

(** *** Further properties of [getRandomPlant] *)

Lemma getRandomPlant_world (random : nat -> nat) (w : World) :
  snd (getRandomPlant' random w)
  = snd (getPlantDetails' (VNum (drawn_id random w)) 1 w).
Proof.
  unfold getRandomPlant. fold (drawn_id random w).
  unfold try_catch. unfold mbind at 1. unfold Async_bind.
  destruct (getPlantDetails _ _ _ _ _ _ _ _ _) as [[plantDetails | error] w1];
    cbn [snd].
  - unfold mbind, Async_bind, lift, mret, Async_ret.
    destruct (get plantDetails "common_name") as [? | error]; [reflexivity |].
    destruct (includes _ _); [| reflexivity]. now rewrite any_cached_eq.
  - destruct (includes _ _); [| reflexivity]. now rewrite any_cached_eq.
Qed.

(** X5: [getRandomPlant] makes at most one request, for the details of
    the id it has drawn; the fallback on a rate-limit error reads the
    storage only. *)
Theorem random_plant_one_request (random : nat -> nat) (w : World) :
  let w' := snd (getRandomPlant' random w) in
  (length (new_requests w w') <= 1)%nat
  /\ Forall (fun r => url r = details_url' (VNum (drawn_id random w)))
       (new_requests w w').
Proof.
  cbn zeta. rewrite getRandomPlant_world.
  destruct (details_requests_bounded_aux (VNum (drawn_id random w)) 1 w)
    as (Hlen & Hurl). auto.
Qed.

Lemma drawn_id_fresh (random : nat -> nat) (w : World) :
  fresh_ids w <> [] -> drawn_id random w ∈ fresh_ids w.
Proof.
  intros Hsome. unfold drawn_id.
  destruct (fresh_ids w) as [|id ids] eqn:E; [congruence |].
  change (0 <? length (id :: ids))%nat with true. cbn iota.
  destruct (lookup_lt_is_Some_2 (id :: ids)
              (random (length (id :: ids)) `mod` length (id :: ids))%nat)
    as [x Hx].
  { apply Nat.mod_upper_bound. cbn. lia. }
  rewrite Hx. cbn. eapply list_elem_of_lookup_2. exact Hx.
Qed.

(** X6: when at least one curated id has a fresh cache entry,
    [getRandomPlant] draws among the fresh ones and makes no request at
    all: the world is left exactly as it was. *)
Theorem random_plant_prefers_cache (random : nat -> nat) (w : World) :
  fresh_ids w <> [] ->
  cache_fresh (localStorage w !! cacheKey_of (VNum (drawn_id random w)))
    (localStorage w !! (cacheKey_of (VNum (drawn_id random w)) +:+ "_time"))
    (clock w) = true
  /\ snd (getRandomPlant' random w) = w.
Proof.
  intros Hsome.
  assert (cache_fresh (localStorage w !! cacheKey_of (VNum (drawn_id random w)))
            (localStorage w
               !! (cacheKey_of (VNum (drawn_id random w)) +:+ "_time"))
            (clock w) = true) as Hfresh.
  { pose proof (drawn_id_fresh random w Hsome) as Hin.
    unfold fresh_ids in Hin. apply list_elem_of_filter in Hin as [Hin _].
    exact Hin. }
  split; [exact Hfresh |].
  rewrite getRandomPlant_world, getPlantDetails_cases, Hfresh. reflexivity.
Qed.

(** *** Further properties of the normalizers *)

(** X7: [formatPlantData] returns on every object whose [common_name] is a
    string or falsy and whose [scientific_name] is not itself an object;
    the record it returns has source ['perenual'], the id of the input, a
    truthy common name and a Wikipedia link.  On [null] and [undefined] it
    throws a [TypeError]. *)
Theorem formatPlantData_returns (fields : list (string * value)) :
  match assoc "common_name" fields with
  | VStr _ => True
  | name => truthy name = false
  end ->
  match assoc "scientific_name" fields with VObj _ => False | _ => True end ->
  (exists record : list (string * value),
      formatPlantData encodeURIComponent (VObj fields) = Return (VObj record)
      /\ assoc "source" record = VStr "perenual"
      /\ assoc "id" record = assoc "id" fields
      /\ truthy (assoc "common_name" record) = true
      /\ truthy (assoc "wikipedia_url" record) = true)
  /\ formatPlantData encodeURIComponent VNull
     = Throw (TypeError "Cannot read properties of undefined (reading 'common_name')")
  /\ formatPlantData encodeURIComponent VUndefined
     = Throw (TypeError "Cannot read properties of undefined (reading 'common_name')").
Proof.
  intros Hcommon Hscientific. split; [| split; reflexivity].
  unfold formatPlantData. cbn [get mbind outcome_bind get_opt].
  assert (exists name : string,
             assoc "common_name" fields ||| VStr "Unknown Plant" = VStr name
             /\ String.eqb name "" = false) as (name & -> & Hname).
  { unfold js_or. destruct (assoc "common_name" fields) as [| | | |  | s | |];
      try (rewrite Hcommon; eexists; split; reflexivity).
    cbn. destruct (String.eqb s "") eqn:E; cbn; eexists; split;
      first [reflexivity | exact E]. }
  assert (exists joined : value,
             call_join_opt (assoc "scientific_name" fields) ", " = Return joined)
    as (joined & ->).
  { destruct (assoc "scientific_name" fields); cbn; try contradiction; eauto. }
  cbn [mbind outcome_bind].
  rewrite getWikipediaUrl_string, Hname. unfold or_else. cbn [mbind outcome_bind].
  rewrite wikipedia_url_truthy. cbn [mbind outcome_bind mret outcome_ret].
  eexists. split; [reflexivity |]. cbn [assoc String.eqb Ascii.eqb Bool.eqb].
  repeat split; try reflexivity.
  cbn. now rewrite Hname.
Qed.

Lemma isNonPerenual_world (plantId : value) (retries : Z) (w : World) :
  isNonPerenual plantId = true ->
  snd (getPlantDetails' plantId retries w) = w.
Proof.
  intros Hprefix. rewrite getPlantDetails_cases, Hprefix.
  destruct (cache_fresh _ _ _); reflexivity.
Qed.

Lemma formatINaturalistData_id (taxon record : value) :
  formatINaturalistData encodeURIComponent taxon = Return record ->
  get_opt record "id" = VStr ("inat_" +:+ js_toString (get_opt taxon "id")).
Proof.
  unfold formatINaturalistData. unfold mbind, outcome_bind, mret, outcome_ret.
  intros H.
  repeat match type of H with
         | match ?x with Return _ => _ | Throw _ => _ end = _ =>
             destruct x; [| discriminate H]
         end.
  injection H as <-. reflexivity.
Qed.

Lemma formatToxicShroomData_id (data record : value) :
  formatToxicShroomData encodeURIComponent data = Return record ->
  exists slug : string, get_opt record "id" = VStr ("toxic_" +:+ slug).
Proof.
  unfold formatToxicShroomData. unfold mbind, outcome_bind, mret, outcome_ret.
  intros H.
  repeat match type of H with
         | match ?x with Return _ => _ | Throw _ => _ end = _ =>
             destruct x; [| discriminate H]
         end.
  injection H as <-. eexists. reflexivity.
Qed.

(** X8: the ids given by [formatINaturalistData] and
    [formatToxicShroomData] start with [inat_] and [toxic_], so
    [getPlantDetails] called on a record they produced never asks Perenual
    for it: it leaves the world, request log included, as it was. *)
Theorem normalized_ids_never_fetched (raw record : value) (retries : Z)
    (w : World) :
  formatINaturalistData encodeURIComponent raw = Return record
  \/ formatToxicShroomData encodeURIComponent raw = Return record ->
  isNonPerenual (get_opt record "id") = true
  /\ snd (getPlantDetails' (get_opt record "id") retries w) = w.
Proof.
  intros Hformat.
  assert (isNonPerenual (get_opt record "id") = true) as Hprefix.
  { destruct Hformat as [H | H].
    - rewrite (formatINaturalistData_id _ _ H). cbn [isNonPerenual].
      now rewrite startsWith_append.
    - destruct (formatToxicShroomData_id _ _ H) as [slug ->]. cbn [isNonPerenual].
      rewrite (startsWith_append "toxic_"). apply orb_true_iff. left.
      apply orb_true_iff. left. apply orb_true_r. }
  split; [exact Hprefix | now apply isNonPerenual_world].
Qed.

(** *** The other data access functions *)

#[local] Abbreviation getDiseasePestInfo' :=
  (getDiseasePestInfo encodeURIComponent JSON_parse PERENUAL_API_KEY server).
#[local] Abbreviation getRandomToxicShroom' :=
  (getRandomToxicShroom JSON_parse API_SOURCES server).
#[local] Abbreviation getRandomINaturalistMushroom' :=
  (getRandomINaturalistMushroom encodeURIComponent JSON_parse API_SOURCES server).
#[local] Abbreviation getRandomMushroom' :=
  (getRandomMushroom encodeURIComponent JSON_parse API_SOURCES server).

(** X9: [getDiseasePestInfo] never throws.  It makes exactly one request,
    to the pest and disease list of Perenual, and when that request fails
    (the server is unreachable, the status is outside 2xx or the body does
    not parse) it returns the empty page [{ data: [], total: 0 }]. *)
Theorem pest_info_never_throws (searchQuery : string) (page : Z) (w : World) :
  let address := pests_url encodeURIComponent PERENUAL_API_KEY searchQuery page in
  let reply := answer (server (length (requests w)) address) in
  exists info : value,
    getDiseasePestInfo' searchQuery page w = (Return info, fetched server address w)
    /\ source_of address = Some Perenual
    /\ (failing reply = true -> info = no_pests)
    /\ (forall status body,
           reply = Response status body -> ok status = true ->
           info = default no_pests (settle (JSON_parse body))).
Proof.
  cbn zeta. unfold getDiseasePestInfo, pests_url, fetched.
  unfold try_catch, mbind, Async_bind, fetch, throw, lift, mret, Async_ret.
  destruct (answer _) as [e | status body].
  - eexists. split; [reflexivity |]. split; [reflexivity |].
    split; [reflexivity | discriminate].
  - destruct (ok status) eqn:Hok; cbn.
    + destruct (JSON_parse body) as [data | e] eqn:Hparse; cbn;
        (eexists; split; [reflexivity |]; split; [reflexivity |];
         split; [intros Hfail; cbn in Hfail; rewrite Hok in Hfail; discriminate |]);
        intros status' body' [= <- <-] _; rewrite Hparse; reflexivity.
    + eexists. split; [reflexivity |]. split; [reflexivity |].
      split; [reflexivity |].
      intros status' body' [= <- <-] Hok'. congruence.
Qed.

Lemma taxa_of_results (a : Answer) :
  exists results total : value,
    taxa_of JSON_parse a = VObj [("results", results); ("total_results", total)]
    /\ truthy results = true.
Proof.
  assert (exists results total : value,
             no_taxa = VObj [("results", results); ("total_results", total)]
             /\ truthy results = true) as Hnone
    by (eexists _, _; split; reflexivity).
  unfold taxa_of. destruct a as [e | status body]; [exact Hnone |].
  destruct (ok status); [| exact Hnone].
  destruct (JSON_parse body) as [data | e]; cbn; [| exact Hnone].
  destruct (get data "results") as [results | e]; cbn; [| exact Hnone].
  eexists _, _. split; [reflexivity |].
  unfold js_or. destruct (truthy results) eqn:Hr; [exact Hr | reflexivity].
Qed.

(** X10: [searchINaturalist] never throws and makes at most one request,
    none when the source is disabled; whatever the server answers, the
    object it returns has a truthy [results] field (the results received,
    or an empty list), which the callers read without a check. *)
Theorem inaturalist_search_never_throws (query : string) (page : Z)
    (taxonId : option Z) (perPage : Z) (w : World) :
  exists (data : value) (w' : World),
    searchINaturalist' query page taxonId perPage w = (Return data, w')
    /\ truthy (get_opt data "results") = true
    /\ (exists total : value, get data "total_results" = Return total)
    /\ new_requests w w'
       = if inaturalist_enabled API_SOURCES
         then [{| url := taxa_url encodeURIComponent query page taxonId perPage;
                  issued_at := clock w |}]
         else [].
Proof.
  pose proof (searchINaturalist_run query page taxonId perPage w) as Hrun.
  cbn zeta in Hrun. rewrite Hrun.
  destruct (inaturalist_enabled API_SOURCES).
  - eexists _, _. split; [reflexivity |].
    destruct (taxa_of_results
                (answer (server (length (requests w))
                           (taxa_url encodeURIComponent query page taxonId perPage))))
      as (results & total & -> & Hr).
    split; [exact Hr |]. split; [eexists; reflexivity |].
    unfold new_requests, fetched. cbn. now rewrite drop_app_length.
  - eexists _, _. split; [reflexivity |]. split; [reflexivity |].
    split; [eexists; reflexivity |]. now apply new_requests_same.
Qed.

(** *** Random mushrooms *)

Lemma getRandomToxicShroom_world (random : Z -> Z) (w : World) :
  snd (getRandomToxicShroom' random w)
  = if toxicshrooms_enabled API_SOURCES
    then fetched server (shrooms_url "") w else w.
Proof.
  unfold getRandomToxicShroom, fetched.
  destruct (toxicshrooms_enabled API_SOURCES); [| reflexivity]. cbn [negb].
  unfold mbind, Async_bind, fetch, throw, lift, mret, Async_ret.
  change (shrooms_url "") with "https://toxicshrooms.vercel.app/api/mushrooms".
  destruct (answer _) as [e | status body]; [reflexivity |].
  destruct (ok status); cbn; [| reflexivity].
  destruct (JSON_parse body) as [mushrooms | e]; cbn; [| reflexivity].
  destruct (none_returned mushrooms); cbn; [reflexivity |].
  destruct (get _ "name"); reflexivity.
Qed.

Lemma getRandomINaturalistMushroom_world (random_page random : Z -> Z) (w : World) :
  snd (getRandomINaturalistMushroom' random_page random w)
  = if inaturalist_enabled API_SOURCES
    then fetched server
           (taxa_url encodeURIComponent "" (random_page 50 + 1) (Some 47170) 30) w
    else w.
Proof.
  unfold getRandomINaturalistMushroom.
  destruct (inaturalist_enabled API_SOURCES) eqn:E; [| reflexivity]. cbn [negb].
  unfold mbind at 1. unfold Async_bind.
  pose proof (searchINaturalist_run "" (random_page 50 + 1) (Some 47170) 30 w) as Hrun.
  cbn zeta in Hrun. rewrite Hrun, E.
  unfold mbind, Async_bind, throw, lift, mret, Async_ret.
  destruct (get (taxa_of _ _) "results") as [found | e]; [| reflexivity].
  destruct (none_returned found); [reflexivity |].
  destruct (get _ "name"); reflexivity.
Qed.

Lemma fetched_requests (address : string) (w : World) :
  requests (fetched server address w)
  = requests w ++ [{| url := address; issued_at := clock w |}].
Proof. reflexivity. Qed.

Lemma is_call_to_taxa (s : Source) (query : string) (page : Z)
    (taxonId : option Z) (perPage now : Z) :
  is_call_to s {| url := taxa_url encodeURIComponent query page taxonId perPage;
                  issued_at := now |}
  = match s with INaturalist => true | _ => false end.
Proof. destruct s; reflexivity. Qed.

Lemma is_call_to_shrooms (s : Source) (now : Z) :
  is_call_to s {| url := shrooms_url ""; issued_at := now |}
  = match s with ToxicShrooms => true | _ => false end.
Proof. destruct s; reflexivity. Qed.

(** X11: one call of [getRandomMushroom] makes at most one request to
    iNaturalist, at most one to Toxic Shrooms and none to Perenual; a
    disabled source gets none, and with both sources disabled the call
    throws ['No mushroom APIs enabled'] and leaves the world as it was. *)
Theorem random_mushroom_requests (useINaturalist : bool)
    (random_page random_fungus random_shroom : Z -> Z) (w : World) (s : Source) :
  let run :=
    getRandomMushroom' useINaturalist random_page random_fungus random_shroom w in
  (calls_to s (new_requests w (snd run))
   <= match s with Perenual => 0 | _ => one_if (enabled API_SOURCES s) end)%nat
  /\ (inaturalist_enabled API_SOURCES = false ->
      toxicshrooms_enabled API_SOURCES = false ->
      run = (Throw (Error "No mushroom APIs enabled"), w)).
Proof.
  cbn zeta. split.
  - assert (forall w1 : World,
               (exists rs, requests w1 = requests w ++ rs
                           /\ (calls_to s rs
                               <= match s with
                                  | Perenual => 0
                                  | _ => one_if (enabled API_SOURCES s)
                                  end)%nat) ->
               (calls_to s (new_requests w w1)
                <= match s with
                   | Perenual => 0
                   | _ => one_if (enabled API_SOURCES s)
                   end)%nat) as Hlog.
    { intros w1 (rs & Hrs & Hcalls). now rewrite (new_requests_app _ _ _ Hrs). }
    apply Hlog. unfold getRandomMushroom.
    pose proof (getRandomINaturalistMushroom_world random_page random_fungus) as Hi.
    pose proof (getRandomToxicShroom_world random_shroom) as Ht.
    assert (forall w0 : World,
               snd ((toxicShroom ← getRandomToxicShroom' random_shroom;
                     lift (formatToxicShroomData encodeURIComponent toxicShroom)) w0)
               = snd (getRandomToxicShroom' random_shroom w0)) as Hformat.
    { intros w0. unfold mbind, Async_bind, lift.
      destruct (getRandomToxicShroom _ _ _ _ _) as [[toxicShroom | e] w1];
        reflexivity. }
    unfold try_catch.
    destruct useINaturalist; cbn [andb];
      destruct (inaturalist_enabled API_SOURCES) eqn:Ei;
      destruct (toxicshrooms_enabled API_SOURCES) eqn:Et;
      cbn [throw snd];
      repeat match goal with
        | |- context [getRandomINaturalistMushroom ?a ?b ?c ?d ?e ?f ?w0] =>
            let H := fresh "Hw" in
            pose proof (Hi w0) as H;
            destruct (getRandomINaturalistMushroom a b c d e f w0) as [[? | ?] ?];
            cbn [snd] in H; subst
        | |- context [(?m ≫= ?k) ?w0] =>
            let H := fresh "Hw" in
            pose proof (Hformat w0) as H; rewrite (Ht w0) in H;
            destruct ((m ≫= k) w0) as [[? | ?] ?];
            cbn [snd] in H; subst
        end;
      cbn [snd]; rewrite ?fetched_requests, <- ?app_assoc;
      try (eexists; split; [reflexivity |]);
      try (exists []; split; [now rewrite app_nil_r |]);
      destruct s; cbn; rewrite ?Ei, ?Et, ?is_call_to_taxa, ?is_call_to_shrooms;
      cbn; lia.
  - intros Ei Et. unfold getRandomMushroom. rewrite Ei, Et.
    now rewrite andb_false_r.
Qed.

(** X13: an error of [getPlantDetails] whose message does not contain
    ['rate limit'] (a network failure, a 5xx status, an invalid record)
    goes through [getRandomPlant] unchanged: the stale entries of the
    storage are used for rate-limit errors only. *)
Theorem random_plant_other_errors (random : nat -> nat) (w w1 : World)
    (error : JsError) :
  getPlantDetails' (VNum (drawn_id random w)) 1 w = (Throw error, w1) ->
  includes (message error) "rate limit" = false ->
  getRandomPlant' random w = (Throw error, w1).
Proof.
  intros Hrun Hother. unfold getRandomPlant. fold (drawn_id random w).
  unfold try_catch. unfold mbind at 1. unfold Async_bind.
  rewrite Hrun, Hother. reflexivity.
Qed.

(** X14: [multiSourceSearch] starts all its requests at the instant it is
    called, in the order Perenual, iNaturalist, Toxic Shrooms, without
    waiting for a reply or for the cooldown; it leaves [localStorage],
    [plantCache] and [lastApiCallTime] as they were, and its [total] is
    the total reported by Perenual (0 when Perenual is not called or its
    request fails). *)
Theorem search_requests_at_once (query : string) (options : Options) (w : World) :
  exists (results : SearchResults) (w' : World),
    multiSourceSearch' query options w = (Return results, w')
    /\ new_requests w w'
       = search_requests encodeURIComponent PERENUAL_API_KEY API_SOURCES query
           options (clock w)
    /\ localStorage w' = localStorage w /\ plantCache w' = plantCache w
    /\ lastApiCallTime w' = lastApiCallTime w
    /\ total results
       = (if selected API_SOURCES options Perenual
          then default (VNum 0)
                 (snd <$> perenual_fields JSON_parse
                            (answer (server (length (requests w))
                                       (list_url encodeURIComponent PERENUAL_API_KEY
                                          1 (search_only query)))))
          else VNum 0).
Proof.
  destruct (multiSourceSearch_run query options w)
    as (w' & Hrun & Hreq & Hstore & Hcache & Hlast & _).
  eexists _, w'. split; [exact Hrun |].
  split; [now apply new_requests_app |]. auto.
Qed.

(** X15: [getPlantList] makes exactly one request, at once, whatever the
    reply; it returns the parsed body of a 2xx reply, throws the
    rate-limit error on 429 and ['Plant list request failed: <status>'] on
    any other status, and lets a network error through. *)
Theorem plant_list_single_request (page : Z) (filters : Filters) (w : World) :
  let address := list_url encodeURIComponent PERENUAL_API_KEY page filters in
  let reply := answer (server (length (requests w)) address) in
  snd (getPlantList' page filters w) = fetched server address w
  /\ fst (getPlantList' page filters w)
     = match reply with
       | Unreachable e => Throw e
       | Response status body =>
           if ok status then JSON_parse body
           else if (status =? 429)%Z then Throw (Error RATE_LIMIT_MESSAGE)
           else Throw (Error ("Plant list request failed: " +:+ string_of_Z status))
       end.
Proof.
  cbn zeta. pose proof (getPlantList_run page filters w) as Hrun.
  cbn zeta in Hrun. rewrite Hrun. split; reflexivity.
Qed.

(** X16: [getINaturalistObservations] never throws; it makes one request
    to iNaturalist when the source is enabled and none otherwise, and
    answers the empty page [{ results: [], total_results: 0 }] when the
    source is disabled or the request fails. *)
Theorem observations_never_throw (taxonId : value) (page : Z) (w : World) :
  exists data : value,
    getINaturalistObservations JSON_parse API_SOURCES server taxonId page w
    = (Return data,
       if inaturalist_enabled API_SOURCES
       then fetched server (observations_url taxonId page) w else w)
    /\ source_of (observations_url taxonId page) = Some INaturalist
    /\ (inaturalist_enabled API_SOURCES = false -> data = no_taxa)
    /\ (failing (answer (server (length (requests w))
                           (observations_url taxonId page))) = true ->
        data = no_taxa).
Proof.
  unfold getINaturalistObservations, observations_url, fetched.
  destruct (inaturalist_enabled API_SOURCES); cbn [negb].
  - unfold try_catch, mbind, Async_bind, fetch, throw, lift, mret, Async_ret.
    destruct (answer _) as [e | status body].
    + eexists. split; [reflexivity |]. split; [reflexivity |].
      split; [discriminate | reflexivity].
    + destruct (ok status) eqn:Hok; cbn.
      * destruct (JSON_parse body) as [data | e]; cbn;
          (eexists; split; [reflexivity |]; split; [reflexivity |];
           split; [discriminate |]);
          rewrite Hok; discriminate.
      * eexists. split; [reflexivity |]. split; [reflexivity |].
        split; [discriminate | reflexivity].
  - eexists. split; [reflexivity |]. split; [reflexivity |]. auto.
Qed.

End Properties.

(** ** Deduplication *)

Section Deduplication.

Context {methods : StringMethods}.

Lemma dedup_key_named (item : value) :
  named item -> dedup_key item = Return (spec_key item).
Proof.
  intros [Hitem Hname]. unfold dedup_key. rewrite (get_get_opt _ _ Hitem). cbn.
  unfold spec_key. unfold spec_name in *. unfold js_or.
  destruct (truthy (get_opt item "scientific_name")) eqn:Es.
  - rewrite ?Es. destruct (get_opt item "scientific_name"); try contradiction.
    reflexivity.
  - destruct (truthy (get_opt item "common_name")) eqn:Ec.
    + rewrite ?Ec. destruct (get_opt item "common_name"); try contradiction.
      reflexivity.
    + rewrite ?Ec. cbn. now rewrite toLowerCase_empty, trim_empty.
Qed.

Lemma foldM_app {A B : Type} (f : A -> B -> outcome A) (a : A) (l1 l2 : list B) :
  foldM f a (l1 ++ l2) = (a' ← foldM f a l1; foldM f a' l2).
Proof.
  revert a. induction l1 as [|x l1 IH]; intros a; cbn; [reflexivity |].
  destruct (f a x) as [a' | e]; cbn; [apply IH | reflexivity].
Qed.

Lemma foldM_tagged (source : string) (items : list value) (st : Combining) :
  foldM (add_item source) st items
  = foldM (fun st record => add_item (fst record) st (snd record)) st
      (map (pair source) items).
Proof.
  revert st. induction items as [|item items IH]; intros st; cbn; [reflexivity |].
  destruct (add_item source st item) as [st' | e]; cbn; [apply IH | reflexivity].
Qed.

Lemma add_item_named (source : string) (st : Combining) (item : value)
    (earlier : list string) :
  named item ->
  (forall key : string, key ∈ seen st <-> key ∈ earlier) ->
  add_item source st item
  = Return (if String.eqb (spec_key item) ""
            then {| combined := combined st ++ [with_source item source];
                    seen := seen st |}
            else if bool_decide (spec_key item ∈ earlier) then st
            else {| combined := combined st ++ [with_source item source];
                    seen := {[spec_key item]} ∪ seen st |}).
Proof.
  intros Hitem Hseen. unfold add_item. rewrite (dedup_key_named _ Hitem). cbn.
  rewrite (bool_decide_ext _ _ (Hseen (spec_key item))).
  destruct (String.eqb (spec_key item) ""); cbn; [reflexivity |].
  destruct (bool_decide (spec_key item ∈ earlier)); reflexivity.
Qed.

(** The loop of [addResults] computes the merge of the specification. *)
Lemma merge_tagged (records : list (string * value)) :
  Forall (fun record => named (snd record)) records ->
  forall (st : Combining) (earlier : list string),
    (forall key : string, key ∈ seen st <-> key ∈ earlier) ->
    exists st' : Combining,
      foldM (fun st record => add_item (fst record) st (snd record)) st records
      = Return st'
      /\ combined st' = combined st ++ merge_spec earlier records.
Proof.
  induction 1 as [|[source item] records Hitem _ IH]; intros st earlier Hseen.
  - exists st. cbn. now rewrite app_nil_r.
  - cbn [foldM merge_spec fst snd]. cbn [snd] in Hitem.
    rewrite (add_item_named source st item earlier Hitem Hseen). cbn.
    destruct (String.eqb (spec_key item) "") eqn:Ekey; cbn.
    + destruct (IH {| combined := combined st ++ [with_source item source];
                      seen := seen st |} earlier Hseen) as (st' & Hrun & Hcomb).
      exists st'. split; [exact Hrun |]. rewrite Hcomb. cbn.
      now rewrite <- app_assoc.
    + destruct (bool_decide (spec_key item ∈ earlier)); cbn.
      * apply IH, Hseen.
      * destruct (IH {| combined := combined st ++ [with_source item source];
                        seen := {[spec_key item]} ∪ seen st |}
                     (spec_key item :: earlier)) as (st' & Hrun & Hcomb).
        { intros key. cbn. rewrite elem_of_union, elem_of_singleton, elem_of_cons.
          now rewrite Hseen. }
        exists st'. split; [exact Hrun |]. rewrite Hcomb. cbn.
        now rewrite <- app_assoc.
Qed.

Lemma combineSearchResults_merge (ps ns ts : list value) (count : value) :
  Forall named ps -> Forall named ns -> Forall named ts ->
  combineSearchResults {| perenual := VArr ps; inaturalist := VArr ns;
                          toxicshrooms := VArr ts; total := count |}
  = Return (merge_spec [] (by_priority ps ns ts)).
Proof.
  intros Hps Hns Hts.
  destruct (merge_tagged (by_priority ps ns ts)) with
    (st := {| combined := []; seen := ∅ |}) (earlier := @nil string)
    as (st' & Hrun & Hcomb).
  { unfold by_priority. rewrite !Forall_app, !Forall_map. auto. }
  { intros key. rewrite elem_of_nil. set_solver. }
  cbn in Hcomb. rewrite <- Hcomb. clear Hcomb.
  unfold by_priority in Hrun. rewrite foldM_app, <- foldM_tagged in Hrun.
  unfold combineSearchResults, addResults. cbn [perenual inaturalist toxicshrooms].
  destruct (foldM (add_item "perenual") _ ps) as [st1 | e]; cbn in Hrun |- *;
    [| discriminate Hrun].
  rewrite foldM_app, <- !foldM_tagged in Hrun.
  destruct (foldM (add_item "inaturalist") st1 ns) as [st2 | e]; cbn in Hrun |- *;
    [| discriminate Hrun].
  rewrite <- foldM_tagged in Hrun. rewrite Hrun. reflexivity.
Qed.

Lemma assoc_set_field (k : string) (v : value) (fs : list (string * value)) :
  assoc k (set_field k v fs) = v.
Proof.
  induction fs as [|[k0 v0] fs IH]; cbn.
  - now rewrite String.eqb_refl.
  - destruct (String.eqb k0 k) eqn:E; cbn.
    + now rewrite String.eqb_refl.
    + now rewrite E.
Qed.

Lemma assoc_set_field_other (k k' : string) (v : value)
    (fs : list (string * value)) :
  k' <> k -> assoc k' (set_field k v fs) = assoc k' fs.
Proof.
  intros Hother. induction fs as [|[k0 v0] fs IH]; cbn.
  - assert (String.eqb k k' = false) as -> by (apply String.eqb_neq; congruence).
    reflexivity.
  - destruct (String.eqb k0 k) eqn:E; cbn.
    + apply String.eqb_eq in E. subst k0.
      assert (String.eqb k k' = false) as -> by (apply String.eqb_neq; congruence).
      reflexivity.
    + destruct (String.eqb k0 k'); [reflexivity | exact IH].
Qed.

Lemma get_opt_defined (v : value) (k : string) (x : value) :
  get_opt v k = x -> x <> VUndefined -> get v k = Return x.
Proof. unfold get_opt. destruct (get v k); congruence. Qed.

Lemma add_item_array_name (source : string) (st : Combining) (item : value)
    (names : list value) :
  get_opt item "scientific_name" = VArr names ->
  add_item source st item = Throw (TypeError "toLowerCase is not a function").
Proof.
  intros Hnames. unfold add_item, dedup_key.
  rewrite (get_opt_defined _ _ _ Hnames) by discriminate. reflexivity.
Qed.

Lemma combine_array_name (before after names : list value)
    (item others fungi count : value) :
  Forall named before ->
  get_opt item "scientific_name" = VArr names ->
  combineSearchResults {| perenual := VArr (before ++ item :: after);
                          inaturalist := others; toxicshrooms := fungi;
                          total := count |}
  = Throw (TypeError "toLowerCase is not a function").
Proof.
  intros Hbefore Hnames.
  unfold combineSearchResults, addResults. cbn [perenual].
  rewrite foldM_app, foldM_tagged.
  destruct (merge_tagged (map (pair "perenual") before)) with
    (st := {| combined := []; seen := ∅ |}) (earlier := @nil string)
    as (st' & Hrun & _).
  { now rewrite Forall_map. }
  { intros key. rewrite elem_of_nil. set_solver. }
  rewrite Hrun. cbn [mbind outcome_bind foldM].
  rewrite (add_item_array_name _ _ _ _ Hnames). reflexivity.
Qed.

(** C5: on lists of records whose names are strings (or absent),
    [combineSearchResults] is the merge of the specification: the sources
    are walked in the order perenual, inaturalist, toxicshrooms; the key of
    a record is its scientific name, or else its common name, lower-cased
    and trimmed; a record with an empty key is always kept; a record with a
    key seen before is dropped and the first one stays as it is; a kept
    record is the record itself with its [source] set.  Two records whose
    keys are equal and not empty, one from perenual and one from
    inaturalist, give the single record of perenual.  The code differs from
    the claim on a record whose [scientific_name] is an array, the form in
    which the Perenual list reports it: there it throws a [TypeError]
    instead of computing a key. *)
Theorem combine_priority_dedup (ps ns ts names : list value)
    (count a b raw : value) :
  Forall named ps -> Forall named ns -> Forall named ts ->
  named a -> named b -> spec_key a = spec_key b -> spec_key a <> "" ->
  get_opt raw "scientific_name" = VArr names ->
  combineSearchResults {| perenual := VArr ps; inaturalist := VArr ns;
                          toxicshrooms := VArr ts; total := count |}
  = Return (merge_spec [] (by_priority ps ns ts))
  /\ combineSearchResults {| perenual := VArr [a]; inaturalist := VArr [b];
                             toxicshrooms := VArr []; total := count |}
     = Return [with_source a "perenual"]
  /\ (forall (fields : list (string * value)) (source key : string),
         get_opt (with_source (VObj fields) source) "source" = VStr source
         /\ (key <> "source" ->
             get_opt (with_source (VObj fields) source) key
             = get_opt (VObj fields) key))
  /\ combineSearchResults {| perenual := VArr (ps ++ [raw]); inaturalist := VArr ns;
                             toxicshrooms := VArr ts; total := count |}
     = Throw (TypeError "toLowerCase is not a function").
Proof.
  intros Hps Hns Hts Ha Hb Hkey Hne Hraw. split; [| split; [| split]].
  - apply combineSearchResults_merge; assumption.
  - rewrite (combineSearchResults_merge [a] [b] [] count
               (List.Forall_cons named a [] Ha (List.Forall_nil named))
               (List.Forall_cons named b [] Hb (List.Forall_nil named))
               (List.Forall_nil named)).
    unfold by_priority. cbn [map app merge_spec].
    rewrite <- Hkey. apply String.eqb_neq in Hne. rewrite Hne.
    rewrite (bool_decide_eq_false_2 (spec_key a ∈ @nil string))
      by (apply not_elem_of_nil).
    rewrite (bool_decide_eq_true_2 (spec_key a ∈ [spec_key a]))
      by (apply elem_of_cons; left; reflexivity).
    reflexivity.
  - intros fields source key. unfold with_source. cbn [spread get_opt get].
    split; [apply assoc_set_field |].
    intros Hother. now apply assoc_set_field_other.
  - apply (combine_array_name ps [] names raw (VArr ns) (VArr ts) count Hps Hraw).
Qed.


(** X12: [combineSearchResults] throws a [TypeError] as soon as it meets a
    record whose [scientific_name] is an array, which is how the Perenual
    list reports it and how [multiSourceSearch] passes it on: the key is
    computed with [toLowerCase], which an array does not have. *)
Theorem combine_rejects_array_names (before after names : list value)
    (item others fungi count : value) :
  Forall named before ->
  get_opt item "scientific_name" = VArr names ->
  combineSearchResults {| perenual := VArr (before ++ item :: after);
                          inaturalist := others; toxicshrooms := fungi;
                          total := count |}
  = Throw (TypeError "toLowerCase is not a function").
Proof. apply combine_array_name. Qed.

End Deduplication.

(** ** The properties at concrete inputs *)

#[global] Existing Instance ascii_methods.

Lemma cache_hit_iff_fresh_witness :
  cached_read (cache_put "plant_1" "Rose" 5 ∅) "plant_1" (5 + CACHE_TTL_MS - 1)
  = Some "Rose"
  /\ cached_read (cache_put "plant_1" "Rose" 5 ∅) "plant_1" (5 + CACHE_TTL_MS) = None
  /\ cached_read (cache_put "plant_1" "Rose" 5 ∅) "plant_1" (5 + CACHE_TTL_MS + 1)
     = None.
Proof.
  destruct (cache_hit_iff_fresh sample_encode sample_parse sample_stringify
              never_refused "KEY" (constant_server 200 "Rose") (VNum 1) 1
              (world_at 0 ∅)) as (_ & _ & _ & Hboundary).
  apply Hboundary. discriminate.
Defined.

Lemma non_perenual_never_fetched_witness :
  getPlantDetails sample_encode sample_parse sample_stringify never_refused "KEY"
    (constant_server 200 "Rose") (VStr "inat_47170") 1 (world_at 0 ∅)
  = (Throw (Error "Cannot fetch details for non-Perenual plant inat_47170. Please use cached data or loadPlantDetails with source parameter."),
     world_at 0 ∅)
  /\ new_requests (world_at 0 ∅)
       (snd (getPlantDetails sample_encode sample_parse sample_stringify
               never_refused "KEY" (constant_server 200 "Rose")
               (VStr "inat_47170") 1 (world_at 0 ∅))) = [].
Proof.
  apply (non_perenual_never_fetched sample_encode sample_parse sample_stringify
           never_refused "KEY" (constant_server 200 "Rose") (VStr "inat_47170") 1
           (world_at 0 ∅)); reflexivity.
Defined.

Lemma retries_bounded_last_error_witness :
  fst (getPlantDetails sample_encode sample_parse sample_stringify never_refused
         "KEY" (constant_server 500 "") (VNum 1) 2 (world_at 0 ∅))
  = Throw (Error "Plant details failed: 500")
  /\ length (new_requests (world_at 0 ∅)
               (snd (getPlantDetails sample_encode sample_parse sample_stringify
                       never_refused "KEY" (constant_server 500 "") (VNum 1) 2
                       (world_at 0 ∅)))) = 2%nat
  /\ Forall (fun r => url r = details_url "KEY" (VNum 1))
       (new_requests (world_at 0 ∅)
          (snd (getPlantDetails sample_encode sample_parse sample_stringify
                  never_refused "KEY" (constant_server 500 "") (VNum 1) 2
                  (world_at 0 ∅)))).
Proof.
  apply (retries_bounded_last_error sample_encode sample_parse sample_stringify
           never_refused "KEY" (constant_server 500 "") (VNum 1) 2 (world_at 0 ∅));
    [lia | reflexivity | reflexivity | intros n; reflexivity].
Defined.

Lemma rate_limit_is_retried_witness :
  fst (getPlantDetails sample_encode sample_parse sample_stringify never_refused
         "KEY" (constant_server 429 "") (VNum 1) 2 (world_at 0 ∅))
  = Throw (Error RATE_LIMIT_MESSAGE)
  /\ length (new_requests (world_at 0 ∅)
               (snd (getPlantDetails sample_encode sample_parse sample_stringify
                       never_refused "KEY" (constant_server 429 "") (VNum 1) 2
                       (world_at 0 ∅)))) = 2%nat.
Proof.
  apply (rate_limit_is_retried sample_encode sample_parse sample_stringify
           never_refused "KEY" (constant_server 429 "") (VNum 1) 2 (world_at 0 ∅));
    [lia | reflexivity | reflexivity | intros n; exists ""; reflexivity].
Defined.

Lemma rate_limit_fallback_first_cached_witness :
  (fst (getPlantDetails sample_encode json_samples sample_stringify never_refused
          "KEY" (constant_server 429 "") (VNum 2) 2 json_world)
   = Throw (Error RATE_LIMIT_MESSAGE)
   /\ localStorage
        (snd (getPlantDetails sample_encode json_samples sample_stringify
                never_refused "KEY" (constant_server 429 "") (VNum 2) 2 json_world))
      = localStorage json_world)
  /\ getRandomPlant sample_encode json_samples sample_stringify never_refused "KEY"
       (constant_server 429 "") (fun _ => 1%nat) json_world
     = (match first_cached json_samples (localStorage json_world)
                CURATED_PLANT_IDS with
        | Some (_, plantData) => Return plantData
        | None => Throw (Error NO_CACHED_PLANTS_MESSAGE)
        end,
        after_attempt "KEY" (constant_server 429 "")
          (VNum (drawn_id (fun _ => 1%nat) json_world)) json_world).
Proof.
  destruct (rate_limit_fallback_first_cached sample_encode json_samples
              sample_stringify never_refused "KEY" (constant_server 429 "")
              (fun _ => 1%nat) json_world) as [Hdetails Hrandom].
  split.
  - apply Hdetails; [lia | reflexivity | reflexivity | intros n; exists ""; reflexivity].
  - apply (Hrandom ""); vm_compute; reflexivity.
Defined.

Lemma combine_priority_dedup_witness :
  combineSearchResults
    {| perenual := VArr [VObj [("scientific_name", VStr " Amanita phalloides")]];
       inaturalist := VArr [VObj [("scientific_name", VStr "AMANITA PHALLOIDES ")]];
       toxicshrooms := VArr []; total := VNum 2 |}
  = Return [VObj [("scientific_name", VStr " Amanita phalloides");
                  ("source", VStr "perenual")]]
  /\ combineSearchResults
       {| perenual := VArr ([VObj [("scientific_name", VStr " Amanita phalloides")]]
                            ++ [sample_listed]);
          inaturalist := VArr [VObj [("scientific_name", VStr "AMANITA PHALLOIDES ")]];
          toxicshrooms := VArr []; total := VNum 2 |}
     = Throw (TypeError "toLowerCase is not a function").
Proof.
  assert (named (VObj [("scientific_name", VStr " Amanita phalloides")])) as Ha
    by (split; [reflexivity | exact I]).
  assert (named (VObj [("scientific_name", VStr "AMANITA PHALLOIDES ")])) as Hb
    by (split; [reflexivity | exact I]).
  destruct (combine_priority_dedup
              [VObj [("scientific_name", VStr " Amanita phalloides")]]
              [VObj [("scientific_name", VStr "AMANITA PHALLOIDES ")]] []
              [VStr "Abies alba"] (VNum 2)
              (VObj [("scientific_name", VStr " Amanita phalloides")])
              (VObj [("scientific_name", VStr "AMANITA PHALLOIDES ")])
              sample_listed
              (List.Forall_cons named _ [] Ha (List.Forall_nil named))
              (List.Forall_cons named _ [] Hb (List.Forall_nil named))
              (List.Forall_nil named) Ha Hb)
    as (_ & Hone & _ & Hthrow);
    [reflexivity | vm_compute; discriminate | reflexivity |].
  split; [exact Hone | exact Hthrow].
Defined.

Lemma search_calls_selected_sources_witness :
  calls_to INaturalist
    (new_requests (world_at 0 ∅)
       (snd (multiSourceSearch sample_encode sample_parse "KEY" inaturalist_off
               (constant_server 200 "Rose") "rose" default_options (world_at 0 ∅))))
  = 0%nat
  /\ searchINaturalist sample_encode sample_parse inaturalist_off
       (constant_server 200 "Rose") "rose" 1 None 30 (world_at 0 ∅)
     = (Return no_taxa, world_at 0 ∅).
Proof.
  destruct (search_calls_selected_sources sample_encode sample_parse "KEY"
              inaturalist_off (constant_server 200 "Rose") "rose" default_options
              (world_at 0 ∅) INaturalist 1 None 30 "")
    as (Hcalls & _ & _ & Hdirect & _).
  split; [exact Hcalls | apply Hdirect; reflexivity].
Defined.


(** ** Where the code departs from the specification *)

(** C1: with a stale entry under the requested id's key and a backend that
    answers 429, [getPlantDetails] throws the rate-limit error; and
    [getRandomPlant], having drawn id 2, returns the entry of id 1. *)
Lemma stale_entry_not_returned :
  cached_read json_store (cacheKey_of (VNum 2)) (clock json_world) = None
  /\ json_store !! cacheKey_of (VNum 2) = Some tulip_json
  /\ json_samples tulip_json = Return tulip
  /\ fst (getPlantDetails sample_encode json_samples sample_stringify never_refused
            "KEY" (constant_server 429 "") (VNum 2) 1 json_world)
     = Throw (Error RATE_LIMIT_MESSAGE)
  /\ drawn_id (fun _ => 1%nat) json_world = 2
  /\ fst (getRandomPlant sample_encode json_samples sample_stringify never_refused
            "KEY" (constant_server 429 "") (fun _ => 1%nat) json_world)
     = Return rose.
Proof. vm_compute. repeat split; reflexivity. Qed.

(** C3: a call of [getPlantDetails] followed by a call of [getPlantList]
    puts two requests to Perenual 100 ms apart. *)
Lemma plant_list_ignores_cooldown :
  map (fun r => (source_of (url r), issued_at r))
    (requests (snd ((_ ← getPlantDetails sample_encode sample_parse
                          sample_stringify never_refused "KEY"
                          (constant_server 200 "Rose") (VNum 1) 1;
                     getPlantList sample_encode sample_parse "KEY"
                       (constant_server 200 "Rose") 1 (search_only "rose"))
                      (world_at 5000 ∅))))
  = [(Some Perenual, 5000); (Some Perenual, 5100)].
Proof. vm_compute. reflexivity. Qed.


(** C9: with every source enabled and the default options, Toxic Shrooms
    gets no request. *)
Lemma enabled_source_not_called :
  toxicshrooms_enabled all_enabled = true
  /\ calls_to ToxicShrooms
       (requests (snd (multiSourceSearch sample_encode sample_parse "KEY"
                         all_enabled (constant_server 200 "Rose") "rose"
                         default_options (world_at 0 ∅)))) = 0%nat
  /\ calls_to Perenual
       (requests (snd (multiSourceSearch sample_encode sample_parse "KEY"
                         all_enabled (constant_server 200 "Rose") "rose"
                         default_options (world_at 0 ∅)))) = 1%nat.
Proof. vm_compute. repeat split; reflexivity. Qed.


(** ** The further properties at concrete inputs *)

Lemma zero_retries_undefined_witness :
  getPlantDetails sample_encode sample_parse sample_stringify never_refused "KEY"
    (constant_server 200 "Rose") (VNum 1) 0 (world_at 0 ∅)
  = (Return VUndefined, world_at 0 ∅).
Proof.
  apply (zero_retries_undefined sample_encode sample_parse sample_stringify
           never_refused "KEY" (constant_server 200 "Rose") (VNum 1) 0
           (world_at 0 ∅)); [lia | reflexivity | reflexivity].
Defined.

Lemma failed_call_writes_nothing_witness :
  localStorage
    (snd (getPlantDetails sample_encode sample_parse sample_stringify never_refused
            "KEY" (constant_server 500 "") (VNum 1) 2 stale_world))
  = localStorage stale_world.
Proof.
  apply (failed_call_writes_nothing sample_encode sample_parse sample_stringify
           never_refused "KEY" (constant_server 500 "") (VNum 1) 2 stale_world
           (Error "Plant details failed: 500")).
  vm_compute. reflexivity.
Defined.

Lemma fetched_details_are_cached_witness :
  exists (formatted : value) (w1 : World),
    getPlantDetails sample_encode sample_parse sample_stringify never_refused "KEY"
      (constant_server 200 "Rose") (VNum 1) 1 (world_at 0 ∅)
    = (Return formatted, w1)
    /\ length (new_requests (world_at 0 ∅) w1) = 1%nat
    /\ localStorage w1
       = cache_put (cacheKey_of (VNum 1)) (sample_stringify formatted) 0 ∅
    /\ forall (w2 : World) (again : Z),
         localStorage w2 = localStorage w1 ->
         clock w2 - 0 < CACHE_TTL_MS ->
         getPlantDetails sample_encode sample_parse sample_stringify never_refused
           "KEY" (constant_server 200 "Rose") (VNum 1) again w2
         = (sample_parse (sample_stringify formatted), w2).
Proof.
  eexists.
  eapply (fetched_details_are_cached sample_encode sample_parse sample_stringify
            never_refused "KEY" (constant_server 200 "Rose") (VNum 1) 1
            (world_at 0 ∅) 200 "Rose").
  - lia.
  - reflexivity.
  - reflexivity.
  - reflexivity.
  - reflexivity.
  - reflexivity.
  - reflexivity.
  - reflexivity.
  - reflexivity.
  - intros store k v. reflexivity.
  - vm_compute. discriminate.
Defined.

Lemma random_plant_prefers_cache_witness :
  cache_fresh
    (cache_put "plant_1" "Rose" 0 ∅
       !! cacheKey_of (VNum (drawn_id (fun _ => 3%nat)
                               (world_at 1000 (cache_put "plant_1" "Rose" 0 ∅)))))
    (cache_put "plant_1" "Rose" 0 ∅
       !! (cacheKey_of (VNum (drawn_id (fun _ => 3%nat)
                                (world_at 1000 (cache_put "plant_1" "Rose" 0 ∅))))
           +:+ "_time"))
    1000 = true
  /\ snd (getRandomPlant sample_encode sample_parse sample_stringify never_refused
            "KEY" (constant_server 429 "") (fun _ => 3%nat)
            (world_at 1000 (cache_put "plant_1" "Rose" 0 ∅)))
     = world_at 1000 (cache_put "plant_1" "Rose" 0 ∅).
Proof.
  apply (random_plant_prefers_cache sample_encode sample_parse sample_stringify
           never_refused "KEY" (constant_server 429 "") (fun _ => 3%nat)
           (world_at 1000 (cache_put "plant_1" "Rose" 0 ∅))).
  vm_compute. discriminate.
Defined.

Lemma formatPlantData_returns_witness :
  exists record : list (string * value),
    formatPlantData sample_encode
      (VObj [("id", VNum 7); ("common_name", VStr "Rose")])
    = Return (VObj record)
    /\ assoc "source" record = VStr "perenual"
    /\ assoc "id" record = VNum 7
    /\ truthy (assoc "common_name" record) = true
    /\ truthy (assoc "wikipedia_url" record) = true.
Proof.
  apply (formatPlantData_returns sample_encode
           [("id", VNum 7); ("common_name", VStr "Rose")]); exact I.
Defined.

Lemma normalized_ids_never_fetched_witness :
  isNonPerenual
    (get_opt (default VNull (settle (formatINaturalistData sample_encode sample_taxon)))
       "id") = true
  /\ snd (getPlantDetails sample_encode sample_parse sample_stringify never_refused
            "KEY" (constant_server 200 "Rose")
            (get_opt (default VNull
                        (settle (formatINaturalistData sample_encode sample_taxon)))
               "id")
            3 (world_at 0 ∅))
     = world_at 0 ∅.
Proof.
  apply (normalized_ids_never_fetched sample_encode sample_parse sample_stringify
           never_refused "KEY" (constant_server 200 "Rose") sample_taxon
           (default VNull (settle (formatINaturalistData sample_encode sample_taxon)))
           3 (world_at 0 ∅)).
  left. vm_compute. reflexivity.
Defined.

Lemma combine_rejects_array_names_witness :
  combineSearchResults {| perenual := VArr ([] ++ sample_listed :: []);
                          inaturalist := VArr []; toxicshrooms := VArr [];
                          total := VNum 1 |}
  = Throw (TypeError "toLowerCase is not a function").
Proof.
  apply (combine_rejects_array_names [] [] [VStr "Abies alba"] sample_listed
           (VArr []) (VArr []) (VNum 1)); [apply List.Forall_nil | reflexivity].
Defined.

Lemma random_plant_other_errors_witness :
  getRandomPlant sample_encode sample_parse sample_stringify never_refused "KEY"
    unreachable_server (fun _ => 0%nat) stale_world
  = (Throw (TypeError "Failed to fetch"),
     after_attempt "KEY" unreachable_server (VNum 1) stale_world).
Proof.
  apply (random_plant_other_errors sample_encode sample_parse sample_stringify
           never_refused "KEY" unreachable_server (fun _ => 0%nat) stale_world
           (after_attempt "KEY" unreachable_server (VNum 1) stale_world)
           (TypeError "Failed to fetch")); vm_compute; reflexivity.
Defined.
